(** * obsidian-goban: the Sensei's Library diagram interpreter ([sltxt2svg.ts])

    A shallow embedding of the [GoDiagram] class: the header parser, the
    grid normalizer and border detection ([initBoardAndDimensions]), the
    layout arithmetic and the renderer ([createSVG] with [drawStone],
    [markIntersection], [getIntersectionType], [drawIntersection] and
    [drawCoordinates]).

    Conventions of the embedding.
    - A JavaScript string is a [string]; its characters are the code units
      U+0000..U+00FF.  Code units above U+00FF are outside the model.
    - [undefined] is [None]; a value that may be [undefined] is an [option].
    - Reading a property of [undefined] throws a [TypeError]; every
      function that can do so returns a [result].
    - Pixel quantities are multiples of 1/4 (the source halves integers at
      most twice), so a [Z] holding the number of quarters is exact.  The
      font box is integral, as the default [{h: 16, w: 8}] is, and numbers
      stay below 2^53 in magnitude, where sums and products of integers
      are exact in doubles and print in positional notation.  The square
      root is the one operation that rounds there, and its rounding is
      modelled ([JS.floorSqrt]).
    - An object used as a dictionary ([linkmap], [imgSvg]) is a [gmap]
      of its own keys.  Reading a key that the object does not hold
      looks in [Object.prototype] ([JS.objectPrototype]): the link map
      is read at tokens of the diagram, which can spell the name of an
      inherited member; [imgSvg] is read at six fixed keys, none of
      which is inherited.
    - The host is Obsidian (Chromium with V8): [String.prototype.contains]
      is the one Obsidian adds, with the meaning of [includes], the
      string of a DOM element is the class string of its interface, and
      the string of a built-in function is its name between [function]
      and the native-code body. *)

From Stdlib Require Import ZArith Ascii String List Bool Lia.
From stdpp Require Import base option list strings gmap pretty.

Local Open Scope string_scope.
Local Open Scope Z_scope.

(** ** The JavaScript built-ins the program uses *)

Module JS.

(** The double quote and the line feed, which string literals of the
    source contain. *)
Definition dquote : ascii := "034"%char.
Definition lf : ascii := "010"%char.
Definition nl : string := String lf EmptyString.

(** Markup literals are written with an apostrophe wherever the source
    has a double quote (no markup literal of the source contains an
    apostrophe); [qq] puts the double quotes back. *)
Fixpoint qq (s : string) : string :=
  match s with
  | EmptyString => EmptyString
  | String c r => String (if Ascii.eqb c "'"%char then dquote else c) (qq r)
  end.

Definition code (c : ascii) : N := N_of_ascii c.

(** WhiteSpace and LineTerminator code units below U+0100: TAB, LF, VT,
    FF, CR, SP and NBSP.  This is the class [\s] and what [trim] and
    [parseInt] skip. *)
Definition isWhite (c : ascii) : bool :=
  let n := code c in
  ((9 <=? n) && (n <=? 13) || (n =? 32) || (n =? 160))%N.

(** The characters the regular-expression dot refuses. *)
Definition isLineTerminator (c : ascii) : bool :=
  let n := code c in ((n =? 10) || (n =? 13))%N.

Definition isDigit (c : ascii) : bool :=
  let n := code c in ((48 <=? n) && (n <=? 57))%N.

Definition isLower (c : ascii) : bool :=
  let n := code c in ((97 <=? n) && (n <=? 122))%N.

Fixpoint takeWhile (p : ascii -> bool) (s : string) : string :=
  match s with
  | String c r => if p c then String c (takeWhile p r) else EmptyString
  | EmptyString => EmptyString
  end.

Fixpoint dropWhile (p : ascii -> bool) (s : string) : string :=
  match s with
  | String c r => if p c then dropWhile p r else s
  | EmptyString => EmptyString
  end.

Fixpoint existsb (p : ascii -> bool) (s : string) : bool :=
  match s with
  | String c r => p c || existsb p r
  | EmptyString => false
  end.

Fixpoint filter (p : ascii -> bool) (s : string) : string :=
  match s with
  | String c r => if p c then String c (filter p r) else filter p r
  | EmptyString => EmptyString
  end.

Fixpoint map (f : ascii -> ascii) (s : string) : string :=
  match s with
  | String c r => String (f c) (map f r)
  | EmptyString => EmptyString
  end.

(** The rest of [s] after the prefix [pre], when [s] starts with it. *)
Fixpoint stripPrefix (pre s : string) : option string :=
  match pre, s with
  | EmptyString, _ => Some s
  | String a pre', String b s' =>
      if Ascii.eqb a b then stripPrefix pre' s' else None
  | String _ _, EmptyString => None
  end.

(** [s.contains(c)] / [s.includes(c)] for a one-character needle. *)
Definition contains (c : ascii) (s : string) : bool := existsb (Ascii.eqb c) s.

Definition trimStart (s : string) : string := dropWhile isWhite s.

Fixpoint trimEnd (s : string) : string :=
  match s with
  | EmptyString => EmptyString
  | String c r =>
      match trimEnd r with
      | EmptyString => if isWhite c then EmptyString else String c EmptyString
      | r' => String c r'
      end
  end.

(** [String.prototype.trim]. *)
Definition trim (s : string) : string := trimEnd (trimStart s).

(** [s.split(sep)] for a one-character separator: never the empty list. *)
Fixpoint split (sep : ascii) (s : string) : list string :=
  match s with
  | EmptyString => [EmptyString]
  | String c r =>
      if Ascii.eqb c sep then EmptyString :: split sep r
      else match split sep r with
           | w :: ws => String c w :: ws
           | [] => [String c EmptyString]
           end
  end.

(** The one-character strings of [s]: what indexing a string yields. *)
Fixpoint chars (s : string) : list string :=
  match s with
  | EmptyString => []
  | String c r => String c EmptyString :: chars r
  end.

(** Split at the last occurrence of [c]. *)
Fixpoint splitLast (c : ascii) (s : string) : option (string * string) :=
  match s with
  | EmptyString => None
  | String a r =>
      match splitLast c r with
      | Some (b, t) => Some (String a b, t)
      | None => if Ascii.eqb a c then Some (EmptyString, r) else None
      end
  end.

(** Comparison of strings by code units, as [<=] and [>=] on two strings. *)
Fixpoint leb (s t : string) : bool :=
  match s, t with
  | EmptyString, _ => true
  | String _ _, EmptyString => false
  | String a s', String b t' =>
      if (code a <? code b)%N then true
      else if (code b <? code a)%N then false
      else leb s' t'
  end.

(** [a.join(sep)], which is also [String(a)] with [sep = ","]. *)
Fixpoint join (sep : string) (l : list string) : string :=
  match l with
  | [] => EmptyString
  | [x] => x
  | x :: r => x +:+ sep +:+ join sep r
  end.

(** *** Numbers *)

(** The numbers that [parseInt] and the coordinate counters produce:
    [NaN], an infinity, or an integer ([-0] is not told from [0]: the
    program only compares and prints). *)
Inductive number : Type :=
  | NaN
  | Inf (negative : bool)
  | Int (z : Z).

(** [Math.floor(Math.sqrt(n))] for an integer [0 <= n < 2^53].  The root
    is rounded to the nearest double before the floor is taken.  With
    [s] the integer root and [2^e < s + 1 <= 2^(e+1)], the doubles just
    below [s + 1] are [2^(e-52)] apart, so the root rounds up to [s + 1]
    when it lies above [s + 1 - 2^(e-53)]: the comparison is made on the
    squares, scaled by [2^(53-e)]. *)
Definition floorSqrt (n : Z) : Z :=
  let s := Z.sqrt n in
  let e := Z.log2_up (s + 1) - 1 in
  let k := 53 - e in
  if (2 ^ k * (s + 1) - 1) ^ 2 <? 2 ^ (2 * k) * n then s + 1 else s.

(** Rounding of an integer to the nearest double, ties to even. *)
Definition roundDouble (z : Z) : number :=
  let a := Z.abs z in
  if a <? 2 ^ 53 then Int z
  else
    let e := Z.log2 a - 52 in
    let q := Z.shiftr a e in
    let r := a - Z.shiftl q e in
    let half := 2 ^ (e - 1) in
    let q' := if (half <? r) || ((r =? half) && Z.odd q) then q + 1 else q in
    let v := Z.shiftl q' e in
    if 2 ^ 1024 <=? v then Inf (z <? 0) else Int (Z.sgn z * v).

Definition digitValue (c : ascii) : option Z :=
  let n := Z.of_N (code c) in
  if (48 <=? n) && (n <=? 57) then Some (n - 48)
  else if (97 <=? n) && (n <=? 122) then Some (n - 87)
  else if (65 <=? n) && (n <=? 90) then Some (n - 55)
  else None.

Definition isRadixDigit (radix : Z) (c : ascii) : bool :=
  match digitValue c with
  | Some v => v <? radix
  | None => false
  end.

Fixpoint digitsValue (radix : Z) (acc : Z) (s : string) : Z :=
  match s with
  | EmptyString => acc
  | String c r =>
      digitsValue radix (acc * radix + default 0 (digitValue c)) r
  end.

(** [parseInt(s)] with no radix argument. *)
Definition parseInt (s : string) : number :=
  let s1 := trimStart s in
  let '(neg, s2) :=
    match s1 with
    | String "-" r => (true, r)
    | String "+" r => (false, r)
    | _ => (false, s1)
    end in
  let '(radix, s3) :=
    match s2 with
    | String "0" (String "x" r) => (16, r)
    | String "0" (String "X" r) => (16, r)
    | _ => (10, s2)
    end in
  match takeWhile (isRadixDigit radix) s3 with
  | EmptyString => NaN
  | ds => let v := digitsValue radix 0 ds in
          roundDouble (if neg then - v else v)
  end.

(** [n % 2 == k] for an integer constant [k]. *)
Definition rem2Is (n : number) (k : Z) : bool :=
  match n with
  | Int z => Z.rem z 2 =? k
  | _ => false
  end.

(** [n == k], [n >= k] and [n < k] for an integer constant [k]. *)
Definition numEq (n : number) (k : Z) : bool :=
  match n with Int z => z =? k | _ => false end.

Definition numGe (n : number) (k : Z) : bool :=
  match n with
  | Int z => k <=? z
  | Inf negative => negb negative
  | NaN => false
  end.

Definition numLt (n : number) (k : Z) : bool :=
  match n with
  | Int z => z <? k
  | Inf negative => negative
  | NaN => false
  end.

(** [n + k] for an integer [k] (exact below 2^53 in magnitude). *)
Definition numAdd (n : number) (k : Z) : number :=
  match n with
  | Int z => Int (z + k)
  | _ => n
  end.

(** [n.toString()] for the numbers above. *)
Definition numToString (n : number) : string :=
  match n with
  | NaN => "NaN"
  | Inf false => "Infinity"
  | Inf true => "-Infinity"
  | Int z => pretty z
  end.

(** A number of quarters printed as JavaScript prints the number:
    [10] for 40, [8.5] for 34, [-4.25] for -17. *)
Definition showQuarters (q : Z) : string :=
  let a := Z.abs q in
  let frac :=
    match a mod 4 with
    | 0 => EmptyString
    | 1 => ".25"
    | 2 => ".5"
    | _ => ".75"
    end in
  (if q <? 0 then "-" else EmptyString) +:+ pretty (a / 4) +:+ frac.

(** An integer as a number of quarters. *)
Definition int (z : Z) : Z := 4 * z.

(** What concatenation makes of a value that may be [undefined]. *)
Definition toStr (v : option string) : string := default "undefined" v.

(** [Object.prototype[key]] as concatenation prints it: the members that
    a plain object inherits.  The constructor is the function [Object],
    the accessor [__proto__] yields [Object.prototype] itself, and the
    others are built-in functions named like their key. *)
Definition objectPrototype (key : string) : option string :=
  if String.eqb key "constructor"
  then Some "function Object() { [native code] }"
  else if String.eqb key "__defineGetter__"
  then Some "function __defineGetter__() { [native code] }"
  else if String.eqb key "__defineSetter__"
  then Some "function __defineSetter__() { [native code] }"
  else if String.eqb key "hasOwnProperty"
  then Some "function hasOwnProperty() { [native code] }"
  else if String.eqb key "__lookupGetter__"
  then Some "function __lookupGetter__() { [native code] }"
  else if String.eqb key "__lookupSetter__"
  then Some "function __lookupSetter__() { [native code] }"
  else if String.eqb key "isPrototypeOf"
  then Some "function isPrototypeOf() { [native code] }"
  else if String.eqb key "propertyIsEnumerable"
  then Some "function propertyIsEnumerable() { [native code] }"
  else if String.eqb key "toString"
  then Some "function toString() { [native code] }"
  else if String.eqb key "valueOf"
  then Some "function valueOf() { [native code] }"
  else if String.eqb key "__proto__"
  then Some "[object Object]"
  else if String.eqb key "toLocaleString"
  then Some "function toLocaleString() { [native code] }"
  else None.

End JS.

(** ** Exceptions *)

(** The outcome of code that may read a property of [undefined]. *)
Inductive result (A : Type) : Type :=
  | Ok (a : A)
  | TypeError.
Arguments Ok {A} a.
Arguments TypeError {A}.

Global Instance result_ret : MRet result := fun A a => Ok a.
Global Instance result_bind : MBind result := fun A B f r =>
  match r with
  | Ok a => f a
  | TypeError => TypeError
  end.

(** A bounded [for] loop over an index list, threading the loop state. *)
Fixpoint forEach {S : Type} (body : Z -> S -> result S) (l : list Z) (s : S)
  : result S :=
  match l with
  | [] => Ok s
  | i :: l' => s' ← body i s; forEach body l' s'
  end.

(** The indices [lo, lo+1, ..., hi] of [for (i = lo; i <= hi; i++)]. *)
Definition range (lo hi : Z) : list Z :=
  List.map (fun k => lo + Z.of_nat k) (seq 0 (Z.to_nat (hi - lo + 1))).

(** ** The data model *)

Record FontSize : Type := { h : Z; w : Z }.

(** The default argument of the constructor. *)
Definition defaultFontSize : FontSize := {| h := 16; w := 8 |}.

(** The fields of a [GoDiagram] that the constructor assigns once the
    header line has matched.  [diagram] is [this.diagram]: [None] is
    [null].  A row of [rows] is a list of tokens: the one-character
    strings of a compact row, or the pieces of a row split on spaces. *)
Record Parsed : Type := {
  firstColor : string;
  coordinates : bool;
  boardSize : JS.number;
  title : string;
  diagram : option string;
  linkmap : gmap string string;
  rows : list (list string);
  startrow : Z;
  startcol : Z;
  endrow : Z;
  endcol : Z;
  topborder : Z;
  bottomborder : Z;
  leftborder : Z;
  rightborder : Z;
  radius : Z;          (* in quarters of a pixel *)
  imageWidth : Z;
  imageHeight : Z;
  offset_x : Z;
  offset_y : Z
}.

(** A [GoDiagram] instance.  When the header does not match, the
    constructor returns early: [this.diagram] is still [null] and the
    fields of [Parsed] are unassigned, which is [parsed = None]. *)
Record GoDiagram : Type := {
  fontSize : FontSize;
  inputDiagram : string;
  failureErrorMessage : string;
  content : list string;
  parsed : option Parsed
}.

(** [this.diagram]. *)
Definition diagramOf (d : GoDiagram) : option string :=
  match parsed d with
  | Some p => diagram p
  | None => None
  end.

(** ** Header parser *)

(** The four groups of the header pattern: the prefix [$$], then an
    optional [W] or [B], an optional [c], an optional run [d+], and the
    rest of the line. *)
Record HeaderMatch : Type := {
  group1 : option string;
  group2 : option string;
  group3 : option string;
  group4 : string
}.

(** Every optional group is greedy and the last group accepts anything, so
    no choice is ever undone.  The third group is written [(d+)] in the
    source: it takes a run of the letter d. *)
Definition matchHeader (s : string) : option HeaderMatch :=
  match JS.stripPrefix "$$" s with
  | Some r =>
      let '(g1, r1) :=
        match r with
        | String c r' =>
            if Ascii.eqb c "W" || Ascii.eqb c "B"
            then (Some (String c EmptyString), r') else (None, r)
        | EmptyString => (None, r)
        end in
      let '(g2, r2) :=
        match r1 with
        | String c r' =>
            if Ascii.eqb c "c" then (Some "c", r') else (None, r1)
        | EmptyString => (None, r1)
        end in
      let ds := JS.takeWhile (Ascii.eqb "d") r2 in
      let r3 := JS.dropWhile (Ascii.eqb "d") r2 in
      Some {| group1 := g1;
              group2 := g2;
              group3 := match ds with EmptyString => None | _ => Some ds end;
              group4 := JS.takeWhile (fun c => negb (JS.isLineTerminator c)) r3 |}
  | None => None
  end.

(** The content pattern: the prefix [$$], white space, then a group that
    starts with a character that is neither white space nor an opening
    bracket.  After the prefix and all the white space that follows it
    must come a character other than an opening bracket (giving white
    space back only exposes white space, which the class refuses too);
    the group runs to the first line terminator. *)
Definition matchContent (s : string) : option string :=
  match JS.stripPrefix "$$" s with
  | Some r =>
      match JS.dropWhile JS.isWhite r with
      | String c r' =>
          if Ascii.eqb c "["
          then None
          else Some (String c
                 (JS.takeWhile (fun c => negb (JS.isLineTerminator c)) r'))
      | EmptyString => None
      end
  | None => None
  end.

(** The link pattern: the prefix [$$], white space, an opening bracket, a
    group, a bar, a group, a closing bracket.  Both groups are greedy and
    stay within the run of characters before the first line terminator,
    so the closing bracket is the last one of the run and the bar the
    last one before it. *)
Definition matchLink (s : string) : option (string * string) :=
  match JS.stripPrefix "$$" s with
  | Some r =>
      match JS.dropWhile JS.isWhite r with
      | String c r' =>
          if Ascii.eqb c "[" then
            let run :=
              JS.takeWhile (fun c => negb (JS.isLineTerminator c)) r' in
            match JS.splitLast "]" run with
            | Some (inside, _) => JS.splitLast "|" inside
            | None => None
            end
          else None
      | EmptyString => None
      end
  | None => None
  end.

(** The anchor test: exactly one character among [a-z], [0-9] and
    [W B @ # C S]. *)
Definition isAnchor (s : string) : bool :=
  match s with
  | String c EmptyString =>
      JS.isLower c || JS.isDigit c || JS.contains c "WB@#CS"
  | _ => false
  end.

(** The body of the loop over the lines after the first: the content
    lines accumulate in [this.diagram], the link lines in the link map. *)
Definition scanLine (st : string * gmap string string) (line : string)
  : string * gmap string string :=
  let '(diag, lm) := st in
  let diag' :=
    match matchContent (JS.trim line) with
    | Some m1 => diag +:+ m1 +:+ JS.nl
    | None => diag
    end in
  let lm' :=
    match matchLink line with
    | Some (m1, m2) =>
        let anchor := JS.trim m1 in
        if isAnchor anchor then <[anchor := JS.trim m2]> lm else lm
    | None => lm
    end in
  (diag', lm').

(** ** Grid normalizer *)

(** Every run of line feeds becomes a space and one line feed; [inRun]
    says that the previous character was a line feed. *)
Fixpoint collapseNewlines (inRun : bool) (s : string) : string :=
  match s with
  | EmptyString => EmptyString
  | String c r =>
      if Ascii.eqb c JS.lf
      then if inRun then collapseNewlines true r
           else String " " (String JS.lf (collapseNewlines true r))
      else String c (collapseNewlines false r)
  end.

(** One row of [tempRows] turned into a row of [this.rows]. *)
Definition splitRow (t : string) : list string :=
  if JS.contains " " t && JS.existsb JS.isDigit t && negb (JS.contains "{" t)
  then JS.split " " t
  else JS.chars (JS.filter (fun c => negb (Ascii.eqb c " ")) t).

Definition normalizeRows (diagram : string) : list (list string) :=
  let diag :=
    JS.map (fun c => if JS.contains c "-|+" then "%"%char else c) diagram in
  let diag :=
    JS.filter (fun c => negb (Ascii.eqb c "009" || Ascii.eqb c "013"
                              || Ascii.eqb c "$")) diag in
  let diag := collapseNewlines false diag in
  List.map splitRow (JS.split JS.lf diag).

(** [rows[i]] and [row[j]]: [undefined] outside the array or string. *)
Definition rowAt (rws : list (list string)) (i : Z) : option (list string) :=
  if i <? 0 then None else rws !! Z.to_nat i.

Definition tokenOf (row : list string) (j : Z) : option string :=
  if j <? 0 then None else row !! Z.to_nat j.

(** [rows[i][j]]: throws when [rows[i]] is [undefined]. *)
Definition tokenAt (rws : list (list string)) (i j : Z)
  : result (option string) :=
  match rowAt rws i with
  | Some row => Ok (tokenOf row j)
  | None => TypeError
  end.

(** [t == "%"]. *)
Definition isSentinel (t : option string) : bool :=
  match t with
  | Some s => String.eqb s "%"
  | None => false
  end.

(** The closure [initBoardAndDimensions], lines 197-281.  It reads
    [this.diagram], [this.coordinates] and [this.fontSize] and assigns
    the grid, the bounds, the border flags and the geometry. *)
Definition initBoardAndDimensions (fs : FontSize) (color : string)
    (coords : bool) (size : JS.number) (ttl : string)
    (lm : gmap string string) (diag : string) : result Parsed :=
  let rws := normalizeRows diag in
  (* find borders *)
  let startrow0 := 0 in
  let startcol0 := 0 in
  let endrow0 := Z.of_nat (length rws) - 1 in
  (* top border *)
  t ← tokenAt rws 0 1;
  let '(startrow1, topb) :=
    if isSentinel t then (startrow0 + 1, 1) else (startrow0, 0) in
  (* bottom border *)
  t ← tokenAt rws endrow0 1;
  let '(endrow1, bottomb) :=
    if isSentinel t then (endrow0 - 1, 1) else (endrow0, 0) in
  (* left border *)
  t ← tokenAt rws startrow1 0;
  let '(startcol1, leftb) :=
    if isSentinel t then (startcol0 + 1, 1) else (startcol0, 0) in
  (* right border *)
  row ← match rowAt rws startrow1 with
        | Some row => Ok row
        | None => TypeError
        end;
  let endcol0 := Z.of_nat (length row) - 2 in
  t ← tokenAt rws endrow1 endcol0;
  let '(endcol1, rightb) :=
    if isSentinel t then (endcol0 - 1, 1) else (endcol0, 0) in
  (* image size *)
  let diameter := JS.floorSqrt (h fs * h fs + w fs * w fs) in
  let width0 := diameter * (1 + endcol1 - startcol1) + 4 in
  let height0 := diameter * (1 + endrow1 - startrow1) + 4 in
  let margins :=
    coords && ((bottomb =? 1) || (topb =? 1)) && ((leftb =? 1) || (rightb =? 1)) in
  let x := w fs * 2 + 4 in
  let y := h fs + 2 in
  Ok {| firstColor := color;
        coordinates := margins;
        boardSize := size;
        title := ttl;
        diagram := Some diag;
        linkmap := lm;
        rows := rws;
        startrow := startrow1;
        startcol := startcol1;
        endrow := endrow1;
        endcol := endcol1;
        topborder := topb;
        bottomborder := bottomb;
        leftborder := leftb;
        rightborder := rightb;
        radius := JS.int diameter / 2;
        imageWidth := if margins then width0 + x else width0;
        imageHeight := if margins then height0 + y else height0;
        offset_x := if margins then 2 + x else 2;
        offset_y := if margins then 2 + y else 2 |}.

(** The validity test at the end of the constructor, lines 319-326. *)
Definition degenerate (fs : FontSize) (p : Parsed) : bool :=
  (endrow p <? startrow p) || (endcol p <? startcol p)
  || (endrow p <? 0) || (endcol p <? 0)
  || (imageWidth p <? w fs) || (imageHeight p <? h fs).

Definition setDiagram (p : Parsed) (v : option string) : Parsed :=
  {| firstColor := firstColor p; coordinates := coordinates p;
     boardSize := boardSize p; title := title p; diagram := v;
     linkmap := linkmap p; rows := rows p;
     startrow := startrow p; startcol := startcol p;
     endrow := endrow p; endcol := endcol p;
     topborder := topborder p; bottomborder := bottomborder p;
     leftborder := leftborder p; rightborder := rightborder p;
     radius := radius p;
     imageWidth := imageWidth p; imageHeight := imageHeight p;
     offset_x := offset_x p; offset_y := offset_y p |}.

(** [new GoDiagram(input_diagram, fontSize)], lines 140-329. *)
Definition newGoDiagram (input_diagram : string) (fs : FontSize)
  : result GoDiagram :=
  let cont := JS.split JS.lf input_diagram in
  let first := JS.trim (hd EmptyString cont) in
  match matchHeader first with
  | None =>
      Ok {| fontSize := fs; inputDiagram := input_diagram;
            failureErrorMessage := "Parsing of ASCII diagram failed";
            content := cont; parsed := None |}
  | Some m =>
      let color :=
        if bool_decide (group1 m = Some "W") then "W" else "B" in
      let coords := bool_decide (group2 m <> None) in
      let size :=
        match group3 m with
        | None => JS.Int 19
        | Some ds => JS.parseInt ds
        end in
      let ttl := JS.trim (group4 m) in
      let '(diag, lm) := fold_left scanLine (tl cont) (EmptyString, ∅) in
      p ← initBoardAndDimensions fs color coords size ttl lm diag;
      let p' := if degenerate fs p then setDiagram p None else p in
      Ok {| fontSize := fs; inputDiagram := input_diagram;
            failureErrorMessage := EmptyString;
            content := cont; parsed := Some p' |}
  end.

(** ** Renderer *)

Section Render.

Import JS.

Variable fs : FontSize.
Variable p : Parsed.

(** [drawStone], lines 679-693.  The template literal ends with a line
    feed and the two blanks that indent its closing line. *)
Definition drawStone (x y : Z) (colorRing colorInside : string) : string :=
  qq "<circle cx='" +:+ showQuarters x +:+ qq "' cy = '" +:+ showQuarters y
  +:+ qq "' r = '" +:+ showQuarters (radius p)
  +:+ qq "' stroke = '" +:+ colorRing
  +:+ qq "' fill = '" +:+ colorInside +:+ qq "' />" +:+ nl +:+ "  ".

(** [markIntersection], lines 695-777; [rad] is its [radius] argument. *)
Definition markIntersection (x y rad : Z) (color type : string) : string :=
  if String.eqb type "W" || String.eqb type "B" || String.eqb type "C" then
    (qq "<circle cx='" +:+ showQuarters x +:+ qq "' cy = '" +:+ showQuarters y
     +:+ qq "' r = '" +:+ showQuarters (rad - int 3)
     +:+ qq "' stroke = '" +:+ color +:+ qq "' fill = 'none'"
     +:+ qq "' />" +:+ nl)
    +:+
    (qq "<circle cx='" +:+ showQuarters x +:+ qq "' cy = '" +:+ showQuarters y
     +:+ qq "' r = '" +:+ showQuarters (rad - int 2)
     +:+ qq "' stroke = '" +:+ color +:+ qq "' fill = 'none'"
     +:+ qq "' />" +:+ nl)
  else if String.eqb type "S" || String.eqb type "@" || String.eqb type "#"
  then
    qq "<rect x='" +:+ showQuarters (x - rad / 2 + int 1)
    +:+ qq "' y = '" +:+ showQuarters (y - rad / 2 + int 1)
    +:+ qq "' width = '" +:+ "7" +:+ qq "' height = '" +:+ "7"
    +:+ qq "' stroke = '" +:+ color +:+ qq "' fill = 'none'"
    +:+ qq "' />" +:+ nl
  else if String.eqb type "," then
    qq "<circle cx='" +:+ showQuarters x +:+ qq "' cy = '" +:+ showQuarters y
    +:+ qq "' r = '" +:+ "3"
    +:+ qq "' stroke = '" +:+ color
    +:+ qq "' fill = '" +:+ color +:+ qq "' />" +:+ nl
  else EmptyString.

(** [getIntersectionType], lines 779-801: [x] is the column and [y] the
    row.  The rows above and below are indexed before they are known to
    exist. *)
Definition getIntersectionType (x y : Z) : result string :=
  up ← tokenAt (rows p) (y - 1) x;
  let type := if isSentinel up then "U" else EmptyString in
  down ← tokenAt (rows p) (y + 1) x;
  let type := if isSentinel down then type +:+ "B" else type in
  lft ← tokenAt (rows p) y (x - 1);
  let type := if isSentinel lft then type +:+ "L" else type in
  rgt ← tokenAt (rows p) y (x + 1);
  let type := if isSentinel rgt then type +:+ "R" else type in
  Ok type.

(** [drawIntersection], lines 803-868. *)
Definition drawIntersection (x y : Z) (color type : string) : string :=
  let upper :=
    if negb (contains "U" type) then
      qq "<line x1='" +:+ showQuarters x
      +:+ qq "' y1='" +:+ showQuarters (y - radius p)
      +:+ qq "' x2='" +:+ showQuarters x +:+ qq "' y2='" +:+ showQuarters y
      +:+ qq "' stroke='" +:+ color +:+ qq "' />" +:+ nl
    else EmptyString in
  let bottom :=
    if negb (contains "B" type) then
      qq "<line x1='" +:+ showQuarters x
      +:+ qq "' y1='" +:+ showQuarters (y + radius p)
      +:+ qq "' x2='" +:+ showQuarters x +:+ qq "' y2='" +:+ showQuarters y
      +:+ qq "' stroke='" +:+ color +:+ qq "' />" +:+ nl +:+ "  "
    else EmptyString in
  let lft :=
    if negb (contains "L" type) then
      qq "<line x1='" +:+ showQuarters (x - radius p)
      +:+ qq "' y1='" +:+ showQuarters y
      +:+ qq "' x2='" +:+ showQuarters x +:+ qq "' y2='" +:+ showQuarters y
      +:+ qq "' stroke='" +:+ color +:+ qq "' />" +:+ nl
    else EmptyString in
  let rgt :=
    if negb (contains "R" type) then
      qq "<line x1='" +:+ showQuarters (x + radius p)
      +:+ qq "' y1='" +:+ showQuarters y
      +:+ qq "' x2='" +:+ showQuarters x +:+ qq "' y2='" +:+ showQuarters y
      +:+ qq "' stroke='" +:+ color +:+ qq "' />" +:+ nl
    else EmptyString in
  upper +:+ bottom +:+ lft +:+ rgt.

(** [coordChars[i]]: [undefined] outside the 58 characters. *)
Definition coordChars : string :=
  "ABCDEFGHJKLMNOPQRSTUVWXYZabcdefghjklmnopqrstuvwxyz123456789".

Definition coordChar (i : number) : option string :=
  match i with
  | Int z =>
      if z <? 0 then None
      else match String.get (Z.to_nat z) coordChars with
           | Some c => Some (String c EmptyString)
           | None => None
           end
  | _ => None
  end.

(** [drawCoordinates], lines 870-952. *)
Definition drawCoordinates (color coordClass SVGTextSize : string) : string :=
  let coordY :=
    if negb (bottomborder p =? 0) then Int (endrow p - startrow p + 1)
    else if negb (topborder p =? 0) then boardSize p
    else Int 0 in
  let coordX :=
    if negb (leftborder p =? 0) then Int 0
    else if negb (rightborder p =? 0) then
      let c := numAdd (boardSize p) (- endcol p - 1) in
      if numLt c 0 then Int 0 else c
    else Int 0 in
  let leftX := int (6 + w fs) in
  let img_y := int (12 + h fs + 2) + radius p - int (h fs) / 2 in
  let '(_, _, leftColSvgElems) :=
    fold_left
      (fun '(img_y, coordY, acc) (_ : Z) =>
         let Xoffset := if numGe coordY 10 then int (w fs)
                        else int (w fs) / 2 in
         let svgElem :=
           qq "<text x='" +:+ showQuarters (leftX - Xoffset)
           +:+ qq "' y='" +:+ showQuarters img_y
           +:+ qq "' class='" +:+ coordClass +:+ qq "' " +:+ SVGTextSize
           +:+ qq "' color='" +:+ color +:+ qq "'>"
           +:+ numToString coordY +:+ " </text>" +:+ nl in
         (img_y + (radius p * 2 + 2), numAdd coordY (-1), acc +:+ svgElem))
      (range 0 (endrow p - startrow p - 1))
      (img_y, coordY, EmptyString) in
  let topY := int 18 in
  let img_x := int (2 + w fs * 2 + 4) + radius p - int (w fs) / 2 in
  let '(_, _, topRowSvgElems) :=
    fold_left
      (fun '(img_x, coordX, acc) (_ : Z) =>
         let svgElem :=
           qq "<text x='" +:+ showQuarters img_x
           +:+ qq "' y='" +:+ showQuarters topY
           +:+ qq "' class='" +:+ coordClass +:+ qq "' " +:+ SVGTextSize
           +:+ qq " color='" +:+ color +:+ qq "'>"
           +:+ toStr (coordChar coordX) +:+ " </text>" +:+ nl in
         (img_x + radius p * 2, numAdd coordX 1, acc +:+ svgElem))
      (range 0 (endcol p - startcol p))
      (img_x, coordX, EmptyString) in
  leftColSvgElems +:+ topRowSvgElems.

(** The colors of [createSVG], lines 418-425. *)
Definition black : string := "rgb(0, 0, 0)".
Definition white : string := "rgb(255, 255, 255)".
Definition red : string := "rgb(255, 55, 55)".
Definition goban : string := "rgb(242, 176, 109)".
Definition link : string := "rgb(202, 106, 69)".
Definition linkOpacity : string := "0.4".
Definition markupClass : string := "markup".
Definition coordClass : string := "coordClass".

Definition evencolor : string :=
  if String.eqb (firstColor p) "W" then black else white.
Definition oddcolor : string :=
  if String.eqb (firstColor p) "W" then white else black.

Definition svgMarkupTextSize : string :=
  qq "style='font-size:" +:+ pretty (9 * h fs / 10) +:+ qq "px'".
Definition svgDefaultTextSize : string :=
  qq "style='font-size:" +:+ showQuarters (int (h fs) / 2) +:+ qq "px'".

(** [this.linkmap[curchar]] as lines 521-525 and 620-621 read it: an
    [undefined] key is the key ["undefined"]; the link map is a plain
    object, so a key that it does not hold is looked up in
    [Object.prototype].  The value is what the concatenation of line 525
    prints; no value is [null]. *)
Definition linkOf (curchar : option string) : option string :=
  match linkmap p !! toStr curchar with
  | Some url => Some url
  | None => objectPrototype (toStr curchar)
  end.

(** [curchar === c] for one of the listed [c]. *)
Definition oneOf (curchar : option string) (l : list string) : bool :=
  match curchar with
  | Some s => List.existsb (String.eqb s) l
  | None => false
  end.

(** [curchar >= "a" && curchar <= "z"]: false for [undefined]. *)
Definition isLetterToken (curchar : option string) : bool :=
  match curchar with
  | Some s => leb "a" s && leb s "z"
  | None => false
  end.

(** The numeral or letter drawn over a cell, lines 641-659. *)
Definition cellText (elementX elementY : Z) (markupColor curchar : string)
  : string :=
  let xOffset := if numGe (parseInt curchar) 10 then int (w fs)
                 else int (w fs) / 2 in
  let yOffset := int (h fs) / 2 - 50 in
  qq "<text x='" +:+ showQuarters (elementX - xOffset)
  +:+ qq "' y='" +:+ showQuarters (elementY - yOffset)
  +:+ qq "' fill='" +:+ markupColor
  +:+ qq "' class='" +:+ markupClass +:+ qq "' " +:+ svgMarkupTextSize
  +:+ ">" +:+ curchar +:+ "</text>" +:+ nl.

(** The [switch (curchar)] of [createSVG], lines 548-661: the markup of
    the cell and the value it leaves in the local [markupColor]. *)
Definition drawCell (xpos ypos elementX elementY : Z)
    (curchar : option string) (markupColor : string)
  : result (string * string) :=
  let c := toStr curchar in
  if oneOf curchar ["X"; "B"; "#"] then
    let svgItem := drawStone elementX elementY black black in
    Ok (if negb (String.eqb c "X")
        then svgItem +:+ markIntersection elementX elementY (radius p) red c
        else svgItem, markupColor)
  else if oneOf curchar ["O"; "W"; "@"] then
    let svgItem := drawStone elementX elementY black white in
    Ok (if negb (String.eqb c "O")
        then svgItem +:+ markIntersection elementX elementY (radius p) red c
        else svgItem, markupColor)
  else if oneOf curchar ["."; ","; "C"; "S"] then
    type ← getIntersectionType xpos ypos;
    let svgItem := drawIntersection elementX elementY black type in
    Ok (if negb (String.eqb c ".")
        then
          let col := if String.eqb c "," then black else red in
          svgItem +:+ markIntersection elementX elementY (radius p) col c
        else svgItem, markupColor)
  else if rem2Is (parseInt c) 1 then
    (* odd numbers *)
    let svgItem := drawStone elementX elementY black oddcolor in
    let markupColor := evencolor in
    Ok (svgItem +:+ cellText elementX elementY markupColor c, markupColor)
  else if rem2Is (parseInt c) 0 || numEq (parseInt c) 0 then
    (* even numbers *)
    let svgItem := drawStone elementX elementY black evencolor in
    let markupColor := oddcolor in
    let c := if String.eqb c "0" then "10" else c in
    Ok (svgItem +:+ cellText elementX elementY markupColor c, markupColor)
  else if isLetterToken curchar then
    type ← getIntersectionType xpos ypos;
    let svgItem := drawIntersection elementX elementY black type in
    let bkColor := match linkOf curchar with
                   | Some _ => link
                   | None => goban
                   end in
    (* a stone-sized circle under the letter *)
    let svgItem := svgItem +:+ drawStone elementX elementY goban goban in
    (* the value of this call is dropped by the source *)
    let _ := markIntersection elementX elementY (radius p + int 4)
               bkColor "@" in
    let markupColor := black in
    Ok (svgItem +:+ cellText elementX elementY markupColor c, markupColor)
  else
    (* unknown character *)
    Ok (EmptyString, markupColor).


(** [imgSvg[key] += s]: a key that was never assigned reads as
    [undefined], which the concatenation spells out. *)
Definition appendTo (imgSvg : gmap string string) (key s : string)
  : gmap string string :=
  <[key := toStr (imgSvg !! key) +:+ s]> imgSvg.

Definition elementYOf (ypos : Z) : Z :=
  (ypos - startrow p) * (radius p * 2) + radius p + int (offset_y p).
Definition elementXOf (xpos : Z) : Z :=
  (xpos - startcol p) * (radius p * 2) + radius p + int (offset_x p).

(** The body of the loop over [xpos], lines 498-662, on the loop state:
    the dictionary [imgSvg] and the local [markupColor]. *)
Definition cellStep (ypos xpos : Z) (st : gmap string string * string)
  : result (gmap string string * string) :=
  let '(imgSvg, markupColor) := st in
  let elementY := elementYOf ypos in
  let elementX := elementXOf xpos in
  curchar ← tokenAt (rows p) ypos xpos;
  let imgSvg :=
    match linkOf curchar with
    | Some url =>
        let imgSvg := appendTo imgSvg "links"
                        (qq "<a href='" +:+ url +:+ qq "' >" +:+ nl) in
        let imgSvg := appendTo imgSvg "links"
          (qq "<rect x='" +:+ showQuarters (elementX - radius p)
           +:+ qq "' y='" +:+ showQuarters (elementY - radius p)
           +:+ qq "' width='" +:+ showQuarters (radius p * 2)
           +:+ qq "' height='" +:+ showQuarters (radius p * 2)
           +:+ qq "' stroke='" +:+ goban
           +:+ qq "' fill='" +:+ link
           +:+ qq "' fill-opacity='" +:+ linkOpacity
           +:+ qq "' />" +:+ nl) in
        appendTo imgSvg "links" ("</a>" +:+ nl)
    | None => imgSvg
    end in
  '(svgItem, markupColor) ← drawCell xpos ypos elementX elementY curchar
                              markupColor;
  Ok (appendTo imgSvg "svgDiagram" svgItem, markupColor).

(** The fragments that [createSVG] stores in [imgSvg] before the loop,
    lines 409-472. *)
Definition openSvgTag : string :=
  qq "<svg width = '" +:+ pretty (imageWidth p)
  +:+ qq "' height = '" +:+ pretty (imageHeight p) +:+ qq "'>" +:+ nl.

Definition closeSvgTag : string := "</svg>" +:+ nl.

Definition background : string :=
  qq "<rect  x='0' y='0' width='" +:+ pretty (imageWidth p)
  +:+ qq "' height = '" +:+ pretty (imageHeight p)
  +:+ qq "' fill = '" +:+ goban +:+ qq "'/>" +:+ nl.

Definition coordinatesMarkup : string :=
  if coordinates p
  then drawCoordinates black coordClass svgDefaultTextSize
  else EmptyString.

(** The valid branch of [createSVG], lines 406-676.  The dictionary
    [imgSvg] starts empty; the key [links] is only ever appended to. *)
Definition renderDiagram : result string :=
  let imgSvg : gmap string string := ∅ in
  let imgSvg := <["openSvgTag" := openSvgTag]> imgSvg in
  let imgSvg := <["closeSvgTag" := closeSvgTag]> imgSvg in
  let imgSvg := <["background" := background]> imgSvg in
  let imgSvg := <["coordinates" := coordinatesMarkup]> imgSvg in
  let markupColor := EmptyString in
  let imgSvg := <["svgDiagram" := EmptyString]> imgSvg in
  '(imgSvg, _) ←
    forEach (fun ypos => forEach (cellStep ypos)
                           (range (startcol p) (endcol p)))
      (range (startrow p) (endrow p)) (imgSvg, markupColor);
  Ok (toStr (imgSvg !! "openSvgTag")
      +:+ toStr (imgSvg !! "background")
      +:+ toStr (imgSvg !! "svgDiagram")
      +:+ toStr (imgSvg !! "links")
      +:+ toStr (imgSvg !! "coordinates")
      +:+ toStr (imgSvg !! "closeSvgTag")).

End Render.

(** ** The error element *)

(** A DOM element as [createSvgErrorMessage] builds it. *)
#[local] Unset Elimination Schemes.
Inductive Element : Type :=
  Elem (localName : string) (attributes : list (string * string))
       (innerHTML : string) (children : list Element).
#[local] Set Elimination Schemes.

(** [String(e)] for an element of the SVG namespace: the class string of
    its interface. *)
Definition elementToString (e : Element) : string :=
  match e with
  | Elem name _ _ _ =>
      "[object "
      +:+ (if String.eqb name "g" then "SVGGElement"
           else if String.eqb name "rect" then "SVGRectElement"
           else if String.eqb name "text" then "SVGTextElement"
           else "SVGElement")
      +:+ "]"
  end.

(** [s.split] on the pattern that captures one to fifteen characters
    other than line terminators: the pieces between the matches
    alternate with the captures.  [between] is the piece being read and
    [chunk] the capture being read. *)
Fixpoint splitChunks (between chunk s : string) : list string :=
  match s with
  | EmptyString =>
      match chunk with
      | EmptyString => [between]
      | _ => [between; chunk; EmptyString]
      end
  | String c r =>
      if JS.isLineTerminator c then
        match chunk with
        | EmptyString => splitChunks (between +:+ String c EmptyString)
                           EmptyString r
        | _ => between :: chunk
                 :: splitChunks (String c EmptyString) EmptyString r
        end
      else if (String.length chunk <? 15)%nat
      then splitChunks between (chunk +:+ String c EmptyString) r
      else between :: chunk :: splitChunks EmptyString (String c EmptyString) r
  end.

(** The element that [createSvgErrorMessage] builds, lines 358-389: a
    group with a rectangle and the message wrapped into a text. *)
Definition svgErrorElement (message : string) (errorClass : string)
  : Element :=
  let splitMessage := splitChunks EmptyString EmptyString message in
  let wPerL := 4%nat in
  let lines := (length splitMessage / wPerL)%nat in
  let lines := if negb (length splitMessage mod wPerL =? 0)%nat
               then S lines else lines in
  let rect :=
    Elem "rect"
      [("x", "0"); ("y", "0"); ("rx", "20"); ("ry", "20");
       ("height", pretty (Z.of_nat lines * 50)); ("fill", "red");
       ("stroke", "black"); ("class", "errorClass")]
      EmptyString [] in
  let text :=
    fold_left
      (fun acc i =>
         acc +:+ JS.join ","
                   (firstn wPerL (skipn (i * wPerL) splitMessage))
             +:+ JS.nl)
      (seq 0 lines) EmptyString in
  let text :=
    Elem "text"
      [("x", "30"); ("y", "30"); ("font-size", "15"); ("fill", "black")]
      text [] in
  Elem "g" [] EmptyString [rect; text].

(** [createSvgErrorMessage], lines 354-391.  The element is returned
    through [String] (line 390), so the value is the class string of the
    group element whatever the message. *)
Definition createSvgErrorMessage (message : string) (errorClass : string)
  : string :=
  let svgError := svgErrorElement message errorClass in
  elementToString svgError.

(** ** [createSVG] *)

(** What [createSVG] returns: [None] is [null]. *)
Record SvgResult : Type := {
  xml : string;
  width : option Z;
  height : option Z
}.

Definition setFailureErrorMessage (d : GoDiagram) (m : string) : GoDiagram :=
  {| fontSize := fontSize d; inputDiagram := inputDiagram d;
     failureErrorMessage := m; content := content d; parsed := parsed d |}.

(** [createSVG], lines 393-677: the value returned (or the exception) and
    the instance after the call. *)
Definition createSVG (d : GoDiagram) : result SvgResult * GoDiagram :=
  let errorClass := EmptyString in
  match diagramOf d, parsed d with
  | Some _, Some p =>
      (svgElement ← renderDiagram (fontSize d) p;
       Ok {| xml := svgElement;
             width := Some (imageWidth p);
             height := Some (imageHeight p) |},
       d)
  | _, _ =>
      (* parsing failed *)
      let d := setFailureErrorMessage d "Parsing of ASCII diagram failed" in
      (Ok {| xml := createSvgErrorMessage (failureErrorMessage d) errorClass;
             width := None;
             height := None |},
       d)
  end.

(** The host's use of the class ([main.ts]): construct, then render. *)
Definition render (source : string) : result SvgResult :=
  goban ← newGoDiagram source defaultFontSize;
  fst (createSVG goban).

(** A diagram whose parse did not fail. *)
Definition valid (d : GoDiagram) : Prop := diagramOf d <> None.

(** The instance after [n] calls of [createSVG]. *)
Fixpoint afterCalls (n : nat) (d : GoDiagram) : GoDiagram :=
  match n with
  | O => d
  | S n' => afterCalls n' (snd (createSVG d))
  end.

(** The lines of an input. *)
Definition lines (l : list string) : string := JS.join JS.nl l.

(** ** Notions the properties are stated with *)

(** The first line as the header parser sees it. *)
Definition headerLine (input : string) : string :=
  JS.trim (hd EmptyString (JS.split JS.lf input)).

(** The first line fails the header match. *)
Definition headerFails (input : string) : Prop :=
  matchHeader (headerLine input) = None.

(** The bounds computed for an input are refused by the validity test. *)
Definition degenerateBounds (input : string) (fs : FontSize) : Prop :=
  exists d p,
    newGoDiagram input fs = Ok d /\ parsed d = Some p
    /\ degenerate fs p = true.

(** The shape of [this.diagram] when the constructor reaches
    [initBoardAndDimensions]: empty, or closed by a line feed. *)
Definition closedByLf (s : string) : Prop :=
  s = EmptyString \/ exists t, s = t +:+ JS.nl.

(** Inputs used as examples: a fragment of a board without borders, as
    Sensei's Library diagrams of a corner or a side are written, and a
    board with a border all around. *)
Definition openFragment : string :=
  lines ["$$B"; "$$ . . ."; "$$ . X ."; "$$ . . ."].

Definition enclosedBoard : string :=
  lines ["$$B"; "$$ +---+"; "$$ | a |"; "$$ +---+"].

Definition enclosedBoardLinked : string :=
  lines ["$$B"; "$$ +---+"; "$$ | a |"; "$$ +---+";
         "$$ [a|http://example.com]"].

(** A compact row that carries a move number. *)
Definition compactNumbered : string :=
  lines ["$$B"; "$$ +---+"; "$$ |.1.|"; "$$ +---+"].

(** A space of [t] that is neither its first nor its last character. *)
Definition hasInteriorSpace (t : string) : bool :=
  match t with
  | EmptyString => false
  | String _ r =>
      JS.contains " " (string_of_list_ascii
                         (removelast (list_ascii_of_string r)))
  end.

(** The row classification in the words of the specification: split on
    spaces when the line has an interior space, a digit and no opening
    brace; one-character tokens otherwise. *)
Definition splitRowSpec (t : string) : list string :=
  if hasInteriorSpace t && JS.existsb JS.isDigit t
     && negb (JS.contains "{" t)
  then JS.split " " t
  else JS.chars (JS.filter (fun c => negb (Ascii.eqb c " ")) t).

(** The token before the last one of a row. *)
Definition secondToLast (row : list string) : option string :=
  tokenOf row (Z.of_nat (length row) - 2).

(** The bottom-border step as a property of the fields it leaves, for a
    given probe of the last row of the grid: the flag is 1 and the end
    row is retracted when the probe finds the sentinel; the flag is 0 and
    the end row is the last row otherwise. *)
Definition bottomBorderRule (probe : list string -> option string)
    (p : Parsed) : Prop :=
  exists lastRow,
    last (rows p) = Some lastRow
    /\ (isSentinel (probe lastRow) = true ->
        bottomborder p = 1
        /\ endrow p = Z.of_nat (length (rows p)) - 2)
    /\ (isSentinel (probe lastRow) = false ->
        bottomborder p = 0
        /\ endrow p = Z.of_nat (length (rows p)) - 1).

(** The board of one intersection with a border all around and
    coordinates requested. *)
Definition scenarioBoard : string :=
  lines ["$$Bc"; "$$ +-+"; "$$ | . |"; "$$ +-+"].

(** The same instance fields with another link map. *)
Definition setLinkmap (p : Parsed) (lm : gmap string string) : Parsed :=
  {| firstColor := firstColor p; coordinates := coordinates p;
     boardSize := boardSize p; title := title p; diagram := diagram p;
     linkmap := lm; rows := rows p;
     startrow := startrow p; startcol := startcol p;
     endrow := endrow p; endcol := endcol p;
     topborder := topborder p; bottomborder := bottomborder p;
     leftborder := leftborder p; rightborder := rightborder p;
     radius := radius p;
     imageWidth := imageWidth p; imageHeight := imageHeight p;
     offset_x := offset_x p; offset_y := offset_y p |}.

(** The fields the constructor computes for an input, if any. *)
Definition parsedOf (input : string) (fs : FontSize) : option Parsed :=
  match newGoDiagram input fs with
  | Ok d => parsed d
  | TypeError => None
  end.

(** A row with two numbered moves, the second written [0]. *)
Definition numberedBoard : string :=
  lines ["$$W"; "$$ + - - - - +"; "$$ | 9 0 . . |"; "$$ + - - - - +"].

(** The concatenation of a list of strings. *)
Definition concatS (l : list string) : string :=
  fold_right String.append EmptyString l.

(** The names of the members that a plain object inherits from
    [Object.prototype]. *)
Definition inheritedNames : list string :=
  ["constructor"; "__defineGetter__"; "__defineSetter__";
   "hasOwnProperty"; "__lookupGetter__"; "__lookupSetter__";
   "isPrototypeOf"; "propertyIsEnumerable"; "toString"; "valueOf";
   "__proto__"; "toLocaleString"].

Definition isInheritedName (key : string) : bool :=
  List.existsb (String.eqb key) inheritedNames.

(** The text that stands for an inherited member in a concatenation. *)
Definition inheritedText (name : string) : string :=
  if String.eqb name "constructor" then "function Object() { [native code] }"
  else if String.eqb name "__proto__" then "[object Object]"
  else "function " +:+ name +:+ "() { [native code] }".

(** The target that the links section shows for a cell: the target
    stored in the link map under the token of the cell or, when the
    token spells the name of an inherited member, the text of that
    member.  A cell beyond the end of its row reads the key
    [undefined]. *)
Definition targetOf (p : Parsed) (token : option string) : option string :=
  let key := JS.toStr token in
  match linkmap p !! key with
  | Some url => Some url
  | None => if isInheritedName key then Some (inheritedText key) else None
  end.








(** A board with a row of tokens, one of which spells the name of an
    inherited member, and no link line. *)
Definition prototypeBoard : string :=
  lines ["$$B"; "$$ + - - - - - +"; "$$ | 1 constructor 2 |";
         "$$ + - - - - - +"].

(** The instance the constructor returns for an input. *)
Definition instanceOf (input : string) (fs : FontSize) : GoDiagram :=
  match newGoDiagram input fs with
  | Ok d => d
  | TypeError =>
      {| fontSize := fs; inputDiagram := input;
         failureErrorMessage := EmptyString; content := []; parsed := None |}
  end.

(** ** The rest of the public surface *)

(** The replacement of one character by [htmlspecialchars], lines
    333-346. *)
Definition escapeChar (c : ascii) : string :=
  if Ascii.eqb c "&" then "&amp;"
  else if Ascii.eqb c "<" then "&lt;"
  else if Ascii.eqb c ">" then "&gt;"
  else if Ascii.eqb c JS.dquote then "&quot;"
  else if Ascii.eqb c "'" then "&#039;"
  else String c EmptyString.

(** [htmlspecialchars], lines 331-348. *)
Fixpoint htmlspecialchars (text : string) : string :=
  match text with
  | EmptyString => EmptyString
  | String c r => escapeChar c +:+ htmlspecialchars r
  end.

(** [getTitle], lines 350-352.  When the header did not match,
    [this.title] is [undefined] and [text.replace] throws. *)
Definition getTitle (d : GoDiagram) : result string :=
  match parsed d with
  | Some p => Ok (htmlspecialchars (title p))
  | None => TypeError
  end.

(** [createSGF], lines 958-962. *)
Definition createSGF (d : GoDiagram) : string := EmptyString.

(** ** The host ([main.ts]) *)

(** [roundNumberToTens], lines 45-47: [Math.ceil(num / 10) * 10] on an
    integer. *)
Definition roundNumberToTens (num : Z) : Z := - ((- num) / 10) * 10.

(** The [svg] element that [draw_chessboard] appends to the page: its
    [viewBox], [width] and [height] attributes, its content and the
    [display] of its style. *)
Record Block : Type := {
  viewBox : string;
  blockWidth : string;
  blockHeight : string;
  innerHTML : string;
  display : string
}.

(** The code-block processor of [draw_chessboard], lines 17-43. *)
Definition draw_chessboard (source : string) : result Block :=
  goban ← newGoDiagram source defaultFontSize;
  svgGoban ← fst (createSVG goban);
  let boxWidth := default 320 (width svgGoban) in
  let boxHeight := default 320 (height svgGoban) in
  Ok {| viewBox := "0 0 " +:+ pretty boxWidth +:+ " " +:+ pretty boxHeight;
        blockWidth := pretty (roundNumberToTens boxWidth);
        blockHeight := pretty (roundNumberToTens boxHeight);
        innerHTML := xml svgGoban;
        display := "block" |}.

(** ** Notions the further properties are stated with *)

(** The characters of a string. *)
Definition charsOf (s : string) : list ascii := list_ascii_of_string s.

(** The cell tokens whose drawing probes the neighbours: the empty
    intersections and the letters. *)
Definition probes (curchar : option string) : bool :=
  negb (oneOf curchar ["X"; "B"; "#"])
  && negb (oneOf curchar ["O"; "W"; "@"])
  && (oneOf curchar ["."; ","; "C"; "S"]
      || (negb (JS.rem2Is (JS.parseInt (JS.toStr curchar)) 1)
          && negb (JS.rem2Is (JS.parseInt (JS.toStr curchar)) 0
                   || JS.numEq (JS.parseInt (JS.toStr curchar)) 0)
          && isLetterToken curchar)).

(** The value of a run of decimal digits. *)
Definition decimalValue (ds : string) : Z := JS.digitsValue 10 0 ds.

(** A non-empty run of decimal digits. *)
Definition isNumeral (ds : string) : bool :=
  negb (String.eqb ds EmptyString) && forallb JS.isDigit (charsOf ds).

(** The characters that would end an attribute value or open a tag. *)
Definition isRawSpecial (c : ascii) : bool :=
  Ascii.eqb c "<" || Ascii.eqb c ">" || Ascii.eqb c JS.dquote
  || Ascii.eqb c "'".

(** The cells on which the body of the drawing loop throws: those of a
    missing row, and those that probe their neighbours where the row
    above or below is missing. *)
Definition cellThrows (p : Parsed) (ypos xpos : Z) : bool :=
  match rowAt (rows p) ypos with
  | None => true
  | Some row =>
      probes (tokenOf row xpos)
      && match getIntersectionType p xpos ypos with
         | Ok _ => false
         | TypeError => true
         end
  end.

(** The characters that [createSVG] draws as a cell of one character:
    the stones, the empty intersections and their marks, the digits and
    the lowercase letters. *)
Definition isDrawn (c : ascii) : bool :=
  JS.contains c "XB#OW@.,CS" || JS.isDigit c || JS.isLower c.

(** The [i]-th label that the first loop of [drawCoordinates] emits,
    lines 918-937, when the count starts at [first]: the position and the
    count written as functions of the index. *)
Definition rowLabel (fs : FontSize) (p : Parsed)
    (color coordClass SVGTextSize : string) (first : JS.number) (i : Z)
  : string :=
  let coordY := JS.numAdd first (- i) in
  let img_y :=
    i * (radius p * 2 + 2)
    + (JS.int (12 + h fs + 2) + radius p - JS.int (h fs) / 2) in
  let Xoffset := if JS.numGe coordY 10 then JS.int (w fs)
                 else JS.int (w fs) / 2 in
  JS.qq "<text x='" +:+ JS.showQuarters (JS.int (6 + w fs) - Xoffset)
  +:+ JS.qq "' y='" +:+ JS.showQuarters img_y
  +:+ JS.qq "' class='" +:+ coordClass +:+ JS.qq "' " +:+ SVGTextSize
  +:+ JS.qq "' color='" +:+ color +:+ JS.qq "'>"
  +:+ JS.numToString coordY +:+ " </text>" +:+ JS.nl.

(** The [i]-th label that the second loop of [drawCoordinates] emits,
    lines 942-960, when the letters start at index [first]. *)
Definition columnLabel (fs : FontSize) (p : Parsed)
    (color coordClass SVGTextSize : string) (first : JS.number) (i : Z)
  : string :=
  let coordX := JS.numAdd first i in
  let img_x :=
    i * (radius p * 2)
    + (JS.int (2 + w fs * 2 + 4) + radius p - JS.int (w fs) / 2) in
  JS.qq "<text x='" +:+ JS.showQuarters img_x
  +:+ JS.qq "' y='" +:+ JS.showQuarters (JS.int 18)
  +:+ JS.qq "' class='" +:+ coordClass +:+ JS.qq "' " +:+ SVGTextSize
  +:+ JS.qq " color='" +:+ color +:+ JS.qq "'>"
  +:+ JS.toStr (coordChar coordX) +:+ " </text>" +:+ JS.nl.

(** The characters that the normalizer of [initBoardAndDimensions]
    replaces, deletes or splits on: the border characters, the tab, the
    carriage return, the dollar sign, the line feed and the blank. *)
Definition isStructural (c : ascii) : bool :=
  JS.contains c "-|+" || Ascii.eqb c "009" || Ascii.eqb c "013"
  || Ascii.eqb c "$" || Ascii.eqb c JS.lf || Ascii.eqb c " ".

(** * Properties *)

(** ** Strings *)

Lemma append_cons (x : ascii) (a b : string) :
  String x a +:+ b = String x (a +:+ b).
Proof. reflexivity. Qed.

Lemma append_nil_l (a : string) : EmptyString +:+ a = a.
Proof. reflexivity. Qed.

Lemma append_assoc (a b c : string) : (a +:+ b) +:+ c = a +:+ (b +:+ c).
Proof.
  induction a as [|x a IH]; [reflexivity|].
  rewrite !append_cons. f_equal. exact IH.
Qed.

Lemma append_nil_r (a : string) : a +:+ EmptyString = a.
Proof.
  induction a as [|x a IH]; [reflexivity|].
  rewrite append_cons. f_equal. exact IH.
Qed.

(** ** The accumulated diagram body ends with a line feed *)

Lemma scanLine_closedByLf st line :
  closedByLf (fst st) -> closedByLf (fst (scanLine st line)).
Proof.
  destruct st as [diag lm]; simpl; intros Hd.
  destruct (matchContent (JS.trim line)) as [m1|]; simpl.
  - right. exists (diag +:+ m1). now rewrite append_assoc.
  - destruct (matchLink line) as [[a b]|]; assumption.
Qed.

Lemma scanLines_closedByLf ls st :
  closedByLf (fst st) -> closedByLf (fst (fold_left scanLine ls st)).
Proof.
  revert st; induction ls as [|l ls IH]; intros st Hst; simpl; [assumption|].
  apply IH, scanLine_closedByLf, Hst.
Qed.

Lemma map_append_nl f t :
  f JS.lf = JS.lf -> JS.map f (t +:+ JS.nl) = JS.map f t +:+ JS.nl.
Proof.
  intros Hf; induction t as [|c t IH].
  - rewrite append_nil_l. unfold JS.nl. cbn [JS.map]. now rewrite Hf.
  - rewrite append_cons. cbn [JS.map]. rewrite IH. reflexivity.
Qed.

Lemma filter_append_nl g t :
  g JS.lf = true -> JS.filter g (t +:+ JS.nl) = JS.filter g t +:+ JS.nl.
Proof.
  intros Hg; induction t as [|c t IH].
  - rewrite append_nil_l. unfold JS.nl. cbn [JS.filter]. now rewrite Hg.
  - rewrite append_cons. cbn [JS.filter]. rewrite IH. now destruct (g c).
Qed.

Lemma collapseNewlines_append_nl t b :
  (exists u, collapseNewlines b (t +:+ JS.nl) = u +:+ JS.nl)
  \/ (b = true /\ collapseNewlines b (t +:+ JS.nl) = EmptyString).
Proof.
  revert b; induction t as [|c t IH]; intros b.
  - destruct b; [right; split; reflexivity | left; exists " "; reflexivity].
  - rewrite append_cons.
    cbn [collapseNewlines]. destruct (Ascii.eqb c JS.lf).
    + destruct b; [apply IH|]. left.
      destruct (IH true) as [[u Hu]|[_ Hu]]; rewrite Hu.
      * exists (String " " (String JS.lf u)); reflexivity.
      * exists " "; reflexivity.
    + left. destruct (IH false) as [[u Hu]|[Hb _]]; [|discriminate].
      rewrite Hu. exists (String c u); reflexivity.
Qed.

Lemma split_append_nl u :
  exists x l, JS.split JS.lf (u +:+ JS.nl) = x :: l ++ [EmptyString].
Proof.
  induction u as [|c u (x & l & IH)].
  - exists EmptyString, []; reflexivity.
  - change (String c u +:+ JS.nl) with (String c (u +:+ JS.nl)).
    cbn [JS.split]. rewrite IH. destruct (Ascii.eqb c JS.lf).
    + exists EmptyString, (x :: l); reflexivity.
    + exists (String c x), l; reflexivity.
Qed.

(** The grid of a body closed by a line feed ends with an empty row. *)
Lemma normalizeRows_closedByLf diag :
  closedByLf diag ->
  normalizeRows diag = [[]]
  \/ exists r rs, normalizeRows diag = r :: rs ++ [[]].
Proof.
  intros [->|[t ->]]; [left; reflexivity | right].
  unfold normalizeRows.
  rewrite map_append_nl by reflexivity.
  rewrite filter_append_nl by reflexivity.
  destruct (collapseNewlines_append_nl
    (JS.filter (fun c => negb (Ascii.eqb c "009" || Ascii.eqb c "013"
                              || Ascii.eqb c "$"))
       (JS.map (fun c => if JS.contains c "-|+" then "%"%char else c) t))
    false) as [[u Hu]|[Hb _]]; [|discriminate].
  rewrite Hu. destruct (split_append_nl u) as (x & l & ->).
  exists (splitRow x), (List.map splitRow l).
  cbn [List.map]. rewrite List.map_app. reflexivity.
Qed.

(** ** The constructor always returns *)

Lemma tokenOf_nil j : tokenOf [] j = None.
Proof. unfold tokenOf. destruct (j <? 0); reflexivity. Qed.

Lemma rowAt_last (l : list (list string)) (x : list string) :
  rowAt (l ++ [x])%list (Z.of_nat (length (l ++ [x])%list) - 1) = Some x.
Proof.
  unfold rowAt. rewrite length_app. cbn [length].
  replace (Z.of_nat (length l + 1) - 1) with (Z.of_nat (length l)) by lia.
  destruct (Z.ltb_spec (Z.of_nat (length l)) 0); [lia|].
  rewrite Nat2Z.id. rewrite lookup_app_r by lia.
  now rewrite Nat.sub_diag.
Qed.

Lemma tokenAt_last (l : list (list string)) j :
  tokenAt (l ++ [[]])%list (Z.of_nat (length (l ++ [[]])%list) - 1) j = Ok None.
Proof. unfold tokenAt. rewrite rowAt_last. now rewrite tokenOf_nil. Qed.

(** What [initBoardAndDimensions] does on the bodies the constructor
    builds: it returns, the grid ends with an empty row, and neither the
    bottom nor the right border is ever seen there. *)
Lemma initBoardAndDimensions_closedByLf fs color coords size ttl lm diag :
  closedByLf diag ->
  exists p,
    initBoardAndDimensions fs color coords size ttl lm diag = Ok p
    /\ rows p = normalizeRows diag
    /\ last (rows p) = Some []
    /\ bottomborder p = 0 /\ rightborder p = 0
    /\ endrow p = Z.of_nat (length (rows p)) - 1
    /\ 0 <= startrow p.
Proof.
  intros Hc. unfold initBoardAndDimensions.
  destruct (normalizeRows_closedByLf diag Hc) as [E|(r & rs & E)]; rewrite E.
  - eexists; split; [reflexivity|]. cbn. repeat split; lia.
  - assert (T0 : forall j, tokenAt (r :: rs ++ [[]]) 0 j = Ok (tokenOf r j))
      by reflexivity.
    assert (R0 : rowAt (r :: rs ++ [[]]) 0 = Some r) by reflexivity.
    assert (R1 : exists r1, rowAt (r :: rs ++ [[]]) 1 = Some r1)
      by (destruct rs; eexists; reflexivity).
    destruct R1 as [r1 R1].
    assert (T1 : forall j, tokenAt (r :: rs ++ [[]]) 1 j = Ok (tokenOf r1 j))
      by (intros j; unfold tokenAt; now rewrite R1).
    assert (TL : forall j,
               tokenAt (r :: rs ++ [[]])
                 (Z.of_nat (length (r :: rs ++ [[]])) - 1) j = Ok None)
      by (intros j; apply (tokenAt_last (r :: rs))).
    assert (Hl : last (r :: rs ++ [[]]) = Some [])
      by (change (r :: rs ++ [[]])%list with ((r :: rs) ++ [[]])%list;
          apply last_snoc).
    revert T0 R0 R1 T1 TL Hl. generalize (r :: rs ++ [[]])%list.
    intros rws T0 R0 R1 T1 TL Hl.
    rewrite T0, TL. cbn [mbind result_bind isSentinel].
    destruct (isSentinel (tokenOf r 1)); cbn [mbind result_bind];
      change (0 + 1) with 1;
      rewrite ?T0, ?T1, ?R0, ?R1, ?TL; cbn [mbind result_bind isSentinel];
      match goal with
      | |- context [isSentinel ?t] => destruct (isSentinel t)
      end;
      cbn [mbind result_bind]; rewrite ?TL; cbn [mbind result_bind isSentinel];
      (eexists; split; [reflexivity|];
       cbn [rows bottomborder rightborder endrow startrow];
       repeat split; try assumption; lia).
Qed.

(** The constructor never throws. *)
Lemma newGoDiagram_returns input fs : exists d, newGoDiagram input fs = Ok d.
Proof.
  unfold newGoDiagram.
  destruct (matchHeader _) as [m|]; [|eexists; reflexivity].
  destruct (fold_left scanLine _ _) as [diag lm] eqn:E.
  assert (Hc : closedByLf diag).
  { change diag with (fst (diag, lm)). rewrite <- E.
    apply scanLines_closedByLf. left; reflexivity. }
  destruct (initBoardAndDimensions_closedByLf fs
              (if bool_decide (group1 m = Some "W") then "W" else "B")
              (bool_decide (group2 m <> None))
              (match group3 m with None => JS.Int 19 | Some ds => JS.parseInt ds end)
              (JS.trim (group4 m)) lm diag Hc) as (p & Hp & _).
  rewrite Hp. cbn [mbind result_bind]. eexists; reflexivity.
Qed.

(** ** Inversion of the constructor *)

Lemma degenerate_setDiagram fs p v :
  degenerate fs (setDiagram p v) = degenerate fs p.
Proof. reflexivity. Qed.

(** The fields that [initBoardAndDimensions] passes through. *)
Lemma initBoardAndDimensions_fields fs color coords size ttl lm diag p :
  initBoardAndDimensions fs color coords size ttl lm diag = Ok p ->
  firstColor p = color /\ title p = ttl /\ boardSize p = size
  /\ linkmap p = lm /\ diagram p = Some diag
  /\ rows p = normalizeRows diag.
Proof.
  unfold initBoardAndDimensions.
  repeat match goal with
         | |- context [tokenAt ?a ?b ?c] =>
             destruct (tokenAt a b c); cbn [mbind result_bind];
             try discriminate
         | |- context [isSentinel ?t] => destruct (isSentinel t)
         | |- context [rowAt ?a ?b] =>
             destruct (rowAt a b); cbn [mbind result_bind];
             try discriminate
         end;
    intros H; first [discriminate H | injection H as H; subst p; repeat split].
Qed.

(** The two ways the constructor returns. *)
Lemma newGoDiagram_inv input fs d :
  newGoDiagram input fs = Ok d ->
  (headerFails input /\ parsed d = None)
  \/ (exists m p, matchHeader (headerLine input) = Some m
        /\ parsed d = Some p
        /\ boardSize p = match group3 m with
                         | None => JS.Int 19
                         | Some ds => JS.parseInt ds
                         end
        /\ (diagram p = None <-> degenerate fs p = true)
        /\ last (rows p) = Some []
        /\ bottomborder p = 0 /\ rightborder p = 0
        /\ endrow p = Z.of_nat (length (rows p)) - 1).
Proof.
  unfold newGoDiagram, headerFails, headerLine.
  destruct (matchHeader _) as [m|] eqn:Hm.
  - destruct (fold_left scanLine _ _) as [diag lm] eqn:E.
    assert (Hc : closedByLf diag).
    { change diag with (fst (diag, lm)). rewrite <- E.
      apply scanLines_closedByLf. left; reflexivity. }
    destruct (initBoardAndDimensions_closedByLf fs
                (if bool_decide (group1 m = Some "W") then "W" else "B")
                (bool_decide (group2 m <> None))
                (match group3 m with
                 | None => JS.Int 19 | Some ds => JS.parseInt ds end)
                (JS.trim (group4 m)) lm diag Hc)
      as (p & Hp & Hrows & Hlast & Hb & Hr & He & _).
    rewrite Hp. cbn [mbind result_bind]. intros [= <-]. right.
    exists m. eexists. split; [reflexivity|]. split; [reflexivity|].
    destruct (initBoardAndDimensions_fields _ _ _ _ _ _ _ _ Hp)
      as (_ & _ & Hsize & _ & Hd & _).
    destruct (degenerate fs p) eqn:Hdeg.
    + rewrite degenerate_setDiagram, Hdeg. cbn. tauto.
    + rewrite Hdeg, Hd. repeat split; try assumption; discriminate.
  - intros [= <-]. left. split; reflexivity.
Qed.

(** ** Rendering an invalid diagram *)

Lemma createSvgErrorMessage_constant message errorClass :
  createSvgErrorMessage message errorClass = "[object SVGGElement]".
Proof. reflexivity. Qed.

Lemma createSVG_invalid d :
  diagramOf d = None ->
  fst (createSVG d)
  = Ok {| xml := "[object SVGGElement]"; width := None; height := None |}
  /\ diagramOf (snd (createSVG d)) = None
  /\ failureErrorMessage (snd (createSVG d))
     = "Parsing of ASCII diagram failed".
Proof.
  unfold createSVG, diagramOf. intros H.
  destruct (parsed d) as [p|] eqn:Hp; [rewrite H|];
    cbn [fst snd parsed failureErrorMessage setFailureErrorMessage];
    rewrite ?Hp; auto.
Qed.

Lemma afterCalls_invalid n d :
  diagramOf d = None -> diagramOf (afterCalls n d) = None.
Proof.
  revert d; induction n as [|n IH]; intros d H; [exact H|].
  cbn [afterCalls]. apply IH, createSVG_invalid, H.
Qed.

(** C2: an input whose first line fails the header match, or whose bounds
    are refused by the validity test, gives an instance whose
    [this.diagram] is [null] and stays so: the first call of [createSVG]
    and every call after it returns [null] for the width and the height,
    and never a board.  The document it returns is not the image with
    the error message that the class comment promises: it is the text
    [[object SVGGElement]].  The group that [createSvgErrorMessage]
    builds, a red rectangle under the wrapped message, is dropped when
    the element is turned into a string. *)
Theorem invalid_diagram_returns_class_string input fs :
  headerFails input \/ degenerateBounds input fs ->
  exists d,
    newGoDiagram input fs = Ok d
    /\ forall n,
         diagramOf (afterCalls n d) = None
         /\ fst (createSVG (afterCalls n d))
            = Ok {| xml := "[object SVGGElement]";
                    width := None; height := None |}
         /\ svgErrorElement
              (failureErrorMessage (snd (createSVG (afterCalls n d))))
              EmptyString
            = Elem "g" [] EmptyString
                [Elem "rect"
                   [("x", "0"); ("y", "0"); ("rx", "20"); ("ry", "20");
                    ("height", "100"); ("fill", "red");
                    ("stroke", "black"); ("class", "errorClass")]
                   EmptyString [];
                 Elem "text"
                   [("x", "30"); ("y", "30"); ("font-size", "15");
                    ("fill", "black")]
                   (",Parsing of ASCI,,I diagram faile" +:+ JS.nl
                    +:+ ",d," +:+ JS.nl)
                   []].
Proof.
  intros H.
  destruct (newGoDiagram_returns input fs) as [d Hd].
  exists d; split; [exact Hd|].
  assert (Hnull : diagramOf d = None).
  { unfold diagramOf.
    destruct (newGoDiagram_inv input fs d Hd)
      as [[_ ->]|(m & p & Hm & Hp & _ & Hdeg & _)]; [reflexivity|].
    rewrite Hp. destruct H as [H|(d' & p' & Hd' & Hp' & Hdeg')].
    - unfold headerFails in H. congruence.
    - rewrite Hd in Hd'. injection Hd' as <-.
      rewrite Hp in Hp'. injection Hp' as <-. now apply Hdeg. }
  intros n.
  pose proof (afterCalls_invalid n d Hnull) as Hn.
  destruct (createSVG_invalid _ Hn) as (Hr & _ & Hm).
  split; [exact Hn|]. split; [exact Hr|].
  rewrite Hm. vm_compute. reflexivity.
Qed.

Lemma invalid_diagram_returns_class_string_witness :
  (headerFails "no header" \/ degenerateBounds "no header" defaultFontSize)
  /\ (headerFails "$$B" \/ degenerateBounds "$$B" defaultFontSize)
  /\ (exists d, newGoDiagram "no header" defaultFontSize = Ok d
        /\ forall n, diagramOf (afterCalls n d) = None
             /\ fst (createSVG (afterCalls n d))
                = Ok {| xml := "[object SVGGElement]";
                        width := None; height := None |})
  /\ (exists d, newGoDiagram "$$B" defaultFontSize = Ok d
        /\ forall n, diagramOf (afterCalls n d) = None
             /\ fst (createSVG (afterCalls n d))
                = Ok {| xml := "[object SVGGElement]";
                        width := None; height := None |}).
Proof.
  assert (H1 : headerFails "no header"
               \/ degenerateBounds "no header" defaultFontSize)
    by (left; reflexivity).
  assert (H2 : headerFails "$$B" \/ degenerateBounds "$$B" defaultFontSize).
  { right. unfold degenerateBounds. eexists. eexists.
    split; [reflexivity|]. split; reflexivity. }
  split; [exact H1|]. split; [exact H2|]. split.
  - destruct (invalid_diagram_returns_class_string _ _ H1) as (d & Hd & Hn).
    exists d. split; [exact Hd|]. intros n.
    destruct (Hn n) as (Ha & Hb & _). split; assumption.
  - destruct (invalid_diagram_returns_class_string _ _ H2) as (d & Hd & Hn).
    exists d. split; [exact Hd|]. intros n.
    destruct (Hn n) as (Ha & Hb & _). split; assumption.
Defined.

(** C5: a diagram that the constructor leaves valid has
    [startrow <= endrow] and [startcol <= endcol]; bounds that violate
    either inequality leave [this.diagram] at [null]. *)
Theorem bounds_ordered_or_invalid input fs d :
  newGoDiagram input fs = Ok d ->
  (valid d ->
   exists p, parsed d = Some p
     /\ startrow p <= endrow p /\ startcol p <= endcol p)
  /\ (forall p, parsed d = Some p ->
        endrow p < startrow p \/ endcol p < startcol p ->
        diagramOf d = None).
Proof.
  intros Hd. unfold valid, diagramOf.
  destruct (newGoDiagram_inv input fs d Hd)
    as [[_ ->]|(m & p & Hm & Hp & _ & Hdeg & _)].
  - split; [congruence | discriminate].
  - rewrite Hp. split.
    + intros Hv. exists p. split; [reflexivity|].
      destruct (degenerate fs p) eqn:E; [exfalso; apply Hv; now apply Hdeg|].
      unfold degenerate in E.
      repeat (apply orb_false_elim in E; destruct E as [E ?]).
      apply Z.ltb_ge in E. lia.
    + intros p' [= <-] Hbad. apply Hdeg. unfold degenerate.
      destruct Hbad as [Hbad|Hbad]; apply Z.ltb_lt in Hbad; rewrite Hbad;
        rewrite ?orb_true_r; reflexivity.
Qed.

Lemma bounds_ordered_or_invalid_witness :
  newGoDiagram enclosedBoard defaultFontSize
  = Ok (instanceOf enclosedBoard defaultFontSize)
  /\ valid (instanceOf enclosedBoard defaultFontSize)
  /\ exists p,
       parsed (instanceOf enclosedBoard defaultFontSize) = Some p
       /\ startrow p <= endrow p /\ startcol p <= endcol p.
Proof.
  assert (Hd : newGoDiagram enclosedBoard defaultFontSize
               = Ok (instanceOf enclosedBoard defaultFontSize))
    by reflexivity.
  assert (Hv : valid (instanceOf enclosedBoard defaultFontSize))
    by (vm_compute; discriminate).
  split; [exact Hd|]. split; [exact Hv|].
  exact (proj1 (bounds_ordered_or_invalid _ _ _ Hd) Hv).
Defined.

(** ** Rendering twice *)

(** C9: on a valid instance a call of [createSVG] leaves the instance as
    it was, so a second call returns what the first returned (the same
    document, width and height, or the same exception). *)
Theorem createSVG_twice d :
  valid d ->
  snd (createSVG d) = d
  /\ createSVG (snd (createSVG d)) = createSVG d.
Proof.
  unfold valid. intros Hv.
  assert (Hs : snd (createSVG d) = d).
  { unfold createSVG. destruct (diagramOf d) eqn:Hd; [|contradiction].
    destruct (parsed d) eqn:Hp; [reflexivity|].
    unfold diagramOf in Hd. rewrite Hp in Hd. discriminate. }
  split; [exact Hs | now rewrite Hs].
Qed.

Lemma createSVG_twice_witness :
  valid (instanceOf enclosedBoardLinked defaultFontSize)
  /\ snd (createSVG (instanceOf enclosedBoardLinked defaultFontSize))
     = instanceOf enclosedBoardLinked defaultFontSize
  /\ createSVG
       (snd (createSVG (instanceOf enclosedBoardLinked defaultFontSize)))
     = createSVG (instanceOf enclosedBoardLinked defaultFontSize).
Proof.
  assert (Hv : valid (instanceOf enclosedBoardLinked defaultFontSize))
    by (vm_compute; discriminate).
  split; [exact Hv|].
  exact (createSVG_twice _ Hv).
Defined.

(** ** A board without a top border *)

(** At row 0 the probe of the row above reads [rows[-1][x]]. *)
Lemma getIntersectionType_row0 p x : getIntersectionType p x 0 = TypeError.
Proof. reflexivity. Qed.

Lemma range_cons lo hi : lo <= hi -> range lo hi = lo :: range (lo + 1) hi.
Proof.
  intros H. unfold range.
  replace (Z.to_nat (hi - lo + 1)) with (S (Z.to_nat (hi - (lo + 1) + 1)))
    by lia.
  cbn [seq List.map]. rewrite <- seq_shift, List.map_map. f_equal; [lia|].
  apply List.map_ext. intros k. lia.
Qed.

(** Every diagram whose window starts at row 0 with an empty
    intersection makes the renderer throw at its first cell. *)
Lemma renderDiagram_throws_at_row0 fs p :
  startrow p = 0 -> 0 <= endrow p -> startcol p <= endcol p ->
  tokenAt (rows p) 0 (startcol p) = Ok (Some ".") ->
  renderDiagram fs p = TypeError.
Proof.
  intros Hs He Hc Ht.
  assert (Hcell : forall st, cellStep fs p 0 (startcol p) st = TypeError).
  { intros [m mc]. unfold cellStep. rewrite Ht. cbn [mbind result_bind].
    replace (drawCell fs p (startcol p) 0 (elementXOf p (startcol p))
               (elementYOf p 0) (Some ".") mc)
      with (TypeError (A := string * string)); [reflexivity|].
    unfold drawCell.
    cbn [oneOf List.existsb String.eqb Ascii.eqb Bool.eqb orb].
    now rewrite getIntersectionType_row0. }
  unfold renderDiagram.
  rewrite Hs, (range_cons 0 (endrow p) He), (range_cons _ _ Hc).
  cbn [forEach]. rewrite Hcell. reflexivity.
Qed.

(** C1: the diagram of a board fragment without a top border is valid,
    and [createSVG] throws on it: the cell at row 0 is an empty
    intersection, and [getIntersectionType] reads [rows[-1][0]]. *)
Theorem createSVG_throws_without_top_border :
  exists d p,
    newGoDiagram openFragment defaultFontSize = Ok d
    /\ parsed d = Some p /\ valid d
    /\ startrow p = 0
    /\ tokenAt (rows p) 0 0 = Ok (Some ".")
    /\ getIntersectionType p 0 0 = TypeError
    /\ fst (createSVG d) = TypeError
    /\ render openFragment = TypeError.
Proof.
  eexists. eexists. split; [reflexivity|]. split; [reflexivity|].
  split; [vm_compute; discriminate|].
  repeat split; vm_compute; reflexivity.
Qed.

(** ** The board size *)

Lemma parseInt_run_of_d r :
  match JS.takeWhile (Ascii.eqb "d") r with
  | EmptyString => True
  | ds => JS.parseInt ds = JS.NaN
  end.
Proof.
  destruct r as [|c r]; [exact I|]. cbn [JS.takeWhile].
  destruct (Ascii.eqb_spec "d" c) as [<-|]; [reflexivity | exact I].
Qed.

(** No input gives a board size other than 19 or [NaN]. *)
Lemma boardSize_19_or_NaN input fs d p :
  newGoDiagram input fs = Ok d -> parsed d = Some p ->
  boardSize p = JS.Int 19 \/ boardSize p = JS.NaN.
Proof.
  intros Hd Hp.
  destruct (newGoDiagram_inv input fs d Hd)
    as [[_ Hn]|(m & p' & Hm & Hp' & Hsize & _)]; [congruence|].
  assert (p' = p) by congruence; subst p'. rewrite Hsize.
  revert Hm. unfold matchHeader.
  destruct (JS.stripPrefix "$$" (headerLine input)) as [r|]; [|discriminate].
  match goal with
  | |- context [let '(g1, r1) := ?e in _] => destruct e as [g1 r1]
  end.
  match goal with
  | |- context [let '(g2, r2) := ?e in _] => destruct e as [g2 r2]
  end.
  intros [= <-]. cbn [group3].
  pose proof (parseInt_run_of_d r2) as H.
  destruct (JS.takeWhile (Ascii.eqb "d") r2); [left; reflexivity | right; exact H].
Qed.

(** C3: the header [$$Bc13 a title] gives the board size 19, and the
    digits go to the title: the third group of the header pattern takes
    the letter d, not digits.  A run of the letter d gives [NaN]. *)
Theorem boardSize_ignores_digits :
  (exists d p,
     newGoDiagram "$$Bc13 a title" defaultFontSize = Ok d
     /\ parsed d = Some p
     /\ boardSize p = JS.Int 19 /\ title p = "13 a title")
  /\ (exists d p,
        newGoDiagram "$$Bcd a title" defaultFontSize = Ok d
        /\ parsed d = Some p
        /\ boardSize p = JS.NaN /\ title p = "a title").
Proof.
  split; (eexists; eexists; split; [reflexivity|]; split; [reflexivity|];
          split; vm_compute; reflexivity).
Qed.

(** ** Compact rows with a move number *)

Lemma split_nonempty sep s : JS.split sep s <> [].
Proof.
  destruct s as [|c s]; cbn [JS.split]; [discriminate|].
  destruct (Ascii.eqb c sep); [discriminate|].
  destruct (JS.split sep s); discriminate.
Qed.

(** After the normalization every line but the last ends with the blank
    put before its line feed: the test for a blank on line 210 holds for
    each of them, whether or not the row was written with blanks. *)
Lemma lines_but_last_contain_blank s b x :
  In x (removelast (JS.split JS.lf (collapseNewlines b s))) ->
  JS.contains " " x = true.
Proof.
  revert b x. induction s as [|c s IH]; intros b x; [intros []|].
  cbn [collapseNewlines]. destruct (Ascii.eqb c JS.lf) eqn:Ec.
  - destruct b; [apply IH|].
    change (JS.split JS.lf
              (String " " (String JS.lf (collapseNewlines true s))))
      with (" " :: JS.split JS.lf (collapseNewlines true s)).
    pose proof (split_nonempty JS.lf (collapseNewlines true s)) as Hne.
    destruct (JS.split JS.lf (collapseNewlines true s)) as [|w ws] eqn:E;
      [contradiction|].
    change (removelast (" " :: w :: ws)) with (" " :: removelast (w :: ws)).
    intros [<-|Hx]; [reflexivity|]. apply (IH true). now rewrite E.
  - cbn [JS.split]. rewrite Ec.
    pose proof (split_nonempty JS.lf (collapseNewlines false s)) as Hne.
    destruct (JS.split JS.lf (collapseNewlines false s)) as [|w ws] eqn:E;
      [contradiction|].
    destruct ws as [|w' ws]; [intros []|].
    change (removelast (String c w :: w' :: ws))
      with (String c w :: removelast (w' :: ws)).
    intros [<-|Hx].
    + unfold JS.contains. cbn [JS.existsb].
      assert (Hw : JS.contains " " w = true)
        by (apply (IH false); rewrite E; left; reflexivity).
      unfold JS.contains in Hw. rewrite Hw. apply orb_true_r.
    + apply (IH false). rewrite E. right. exact Hx.
Qed.

(** So for every line but the last the classification is decided by
    the digit and the brace alone. *)
Lemma splitRow_with_blank x :
  JS.contains " " x = true ->
  splitRow x
  = if JS.existsb JS.isDigit x && negb (JS.contains "{" x)
    then JS.split " " x
    else JS.chars (JS.filter (fun c => negb (Ascii.eqb c " ")) x).
Proof. intros H. unfold splitRow. now rewrite H. Qed.

(** C4: the row [|.1.|] reaches the classification as [%.1.% ], with the
    blank that the normalization puts before every line feed.  The blank
    is not interior, so the specification asks for one-character tokens;
    the source sees a blank and a digit and splits on blanks, which
    leaves the whole row as one token. *)
Theorem compact_row_with_digit_is_split_on_spaces :
  hasInteriorSpace "%.1.% " = false
  /\ splitRowSpec "%.1.% " = ["%"; "."; "1"; "."; "%"]
  /\ splitRow "%.1.% " = ["%.1.%"; EmptyString]
  /\ exists d p,
       newGoDiagram compactNumbered defaultFontSize = Ok d
       /\ parsed d = Some p
       /\ rows p = [["%"; "%"; "%"; "%"; "%"]; ["%.1.%"; EmptyString];
                    ["%"; "%"; "%"; "%"; "%"]; []].
Proof.
  repeat split; try reflexivity.
  eexists; eexists; split; [reflexivity|]; split; [reflexivity|].
  vm_compute; reflexivity.
Qed.

(** ** The bottom border *)

Lemma rowAt_last_inv (rws : list (list string)) row :
  rowAt rws (Z.of_nat (length rws) - 1) = Some row -> last rws = Some row.
Proof.
  unfold rowAt. destruct (Z.ltb_spec (Z.of_nat (length rws) - 1) 0);
    [discriminate|].
  rewrite last_lookup.
  replace (Z.to_nat (Z.of_nat (length rws) - 1)) with (pred (length rws))
    by lia.
  trivial.
Qed.

(** The bottom-border step of [initBoardAndDimensions] in terms of the
    row it reads. *)
Lemma initBoardAndDimensions_bottom fs color coords size ttl lm diag p :
  initBoardAndDimensions fs color coords size ttl lm diag = Ok p ->
  exists row,
    last (rows p) = Some row
    /\ bottomborder p = (if isSentinel (tokenOf row 1) then 1 else 0)
    /\ endrow p = Z.of_nat (length (rows p)) - 1 - bottomborder p.
Proof.
  unfold initBoardAndDimensions. generalize (normalizeRows diag) as rws.
  intros rws.
  destruct (tokenAt rws 0 1) as [t0|]; cbn [mbind result_bind];
    [|discriminate].
  destruct (tokenAt rws (Z.of_nat (length rws) - 1) 1) as [t1|] eqn:T;
    [|destruct (isSentinel t0); cbn [mbind result_bind]; discriminate].
  unfold tokenAt in T.
  destruct (rowAt rws (Z.of_nat (length rws) - 1)) as [row|] eqn:R;
    [|discriminate].
  injection T as <-. apply rowAt_last_inv in R.
  destruct (isSentinel t0); cbn [mbind result_bind];
    destruct (isSentinel (tokenOf row 1)) eqn:Eb;
    repeat match goal with
           | |- context [tokenAt ?a ?b ?c] =>
               destruct (tokenAt a b c); cbn [mbind result_bind];
               try discriminate
           | |- context [isSentinel ?t] => destruct (isSentinel t)
           | |- context [rowAt ?a ?b] =>
               destruct (rowAt a b); cbn [mbind result_bind];
               try discriminate
           end;
    intros H;
    first [discriminate H
          | injection H as H; subst p; exists row;
            cbn [rows bottomborder endrow];
            split; [exact R|]; rewrite Eb; split; [reflexivity | lia]].
Qed.

(** On the grids the constructor builds the last row is the empty row
    that the final line feed leaves: the flag is 0 and the end row is
    that row. *)
Lemma constructor_bottom_border input fs d p :
  newGoDiagram input fs = Ok d -> parsed d = Some p ->
  last (rows p) = Some [] /\ bottomborder p = 0
  /\ endrow p = Z.of_nat (length (rows p)) - 1.
Proof.
  intros Hd Hp.
  destruct (newGoDiagram_inv input fs d Hd)
    as [[_ Hn]|(m & p' & _ & Hp' & _ & _ & Hl & Hb & _ & He)];
    [congruence|].
  assert (p' = p) by congruence; subst p'. now repeat split.
Qed.

(** On those grids the last row has no token to probe, so the step
    leaves the flag at 0 whatever token of the last row is probed. *)
Lemma constructor_bottom_border_rule input fs d p probe :
  newGoDiagram input fs = Ok d -> parsed d = Some p ->
  probe [] = None -> bottomBorderRule probe p.
Proof.
  intros Hd Hp Hprobe.
  destruct (constructor_bottom_border input fs d p Hd Hp) as (Hl & Hb & He).
  exists []. split; [exact Hl|]. rewrite Hprobe. cbn [isSentinel].
  split; [discriminate | intros _; now split].
Qed.

(** C6: the bottom border is never detected.  Every diagram body ends
    with a line feed, so the last row of the grid is the empty row that
    the split leaves after it; the bottom-border step probes that row,
    finds no token, and leaves the flag at 0 and the end row on the
    empty row.  A border drawn as the last line of a diagram is the row
    before, which no step probes: the rule of the claim, read on that
    line, fails whenever the line has the sentinel as its
    second-to-last token, so a board framed at the bottom has the flag
    0 and keeps its border row and the empty row in the window. *)
Theorem bottom_border_is_never_detected input fs d p :
  newGoDiagram input fs = Ok d -> parsed d = Some p ->
  last (rows p) = Some []
  /\ bottomborder p = 0
  /\ endrow p = Z.of_nat (length (rows p)) - 1
  /\ rowAt (rows p) (endrow p) = Some []
  /\ forall row,
       rowAt (rows p) (Z.of_nat (length (rows p)) - 2) = Some row ->
       isSentinel (secondToLast row) = true ->
       ~ bottomBorderRule (fun _ => secondToLast row) p.
Proof.
  intros Hd Hp.
  destruct (constructor_bottom_border input fs d p Hd Hp) as (Hl & Hb & He).
  split; [exact Hl|]. split; [exact Hb|]. split; [exact He|]. split.
  - rewrite He. unfold rowAt. rewrite last_lookup in Hl.
    destruct (rows p) as [|r rs]; [discriminate|].
    destruct (Z.ltb_spec (Z.of_nat (length (r :: rs)) - 1) 0) as [Hneg|_];
      [cbn [length] in Hneg; lia|].
    replace (Z.to_nat (Z.of_nat (length (r :: rs)) - 1))
      with (pred (length (r :: rs))) by lia.
    exact Hl.
  - intros row _ Hs (lastRow & _ & H1 & _).
    destruct (H1 Hs) as [Hb1 _]. rewrite Hb in Hb1. discriminate.
Qed.

Lemma bottom_border_is_never_detected_witness :
  exists p,
    parsed (instanceOf scenarioBoard defaultFontSize) = Some p
    /\ rows p = [["%"; "%"; "%"]; ["%"; "."; "%"]; ["%"; "%"; "%"]; []]
    /\ topborder p = 1 /\ imageHeight p = 73
    /\ bottomborder p = 0
    /\ endrow p = 3
    /\ ~ bottomBorderRule (fun _ => secondToLast ["%"; "%"; "%"]) p.
Proof.
  assert (Hd : newGoDiagram scenarioBoard defaultFontSize
               = Ok (instanceOf scenarioBoard defaultFontSize))
    by reflexivity.
  eexists. split; [reflexivity|]. split; [reflexivity|].
  split; [reflexivity|]. split; [reflexivity|].
  destruct (bottom_border_is_never_detected _ _ _ _ Hd eq_refl)
    as (_ & Hb & He & _ & Hrule).
  split; [exact Hb|]. split; [exact He|].
  exact (Hrule ["%"; "%"; "%"] eq_refl eq_refl).
Defined.

(** ** Numbered moves and letters *)

(** Markup is compared after the concatenations are nested to the right
    and the literals spelled out. *)
Ltac markup_eq :=
  rewrite ?append_assoc;
  cbv [String.append JS.qq JS.nl JS.lf JS.dquote Ascii.eqb Bool.eqb
       black white goban link linkOpacity markupClass];
  reflexivity.

(** C8: a cell whose token is [0] gets a circle with a black ring filled
    with the color of the even moves (black when White moves first,
    white otherwise), and a text that is the label [10] in the color of
    the odd moves, placed with the offset of a two-digit label.  The
    cell is classified by the token, not by the label: it is drawn
    exactly as the cell of the even move [10]. *)
Theorem zero_token_is_even_and_labelled_ten
    fs p xpos ypos elementX elementY markupColor :
  drawCell fs p xpos ypos elementX elementY (Some "0") markupColor
  = Ok (JS.qq "<circle cx='" +:+ JS.showQuarters elementX
        +:+ JS.qq "' cy = '" +:+ JS.showQuarters elementY
        +:+ JS.qq "' r = '" +:+ JS.showQuarters (radius p)
        +:+ JS.qq "' stroke = 'rgb(0, 0, 0)' fill = '"
        +:+ (if String.eqb (firstColor p) "W"
             then "rgb(0, 0, 0)" else "rgb(255, 255, 255)")
        +:+ JS.qq "' />" +:+ JS.nl +:+ "  "
        +:+ JS.qq "<text x='" +:+ JS.showQuarters (elementX - JS.int (w fs))
        +:+ JS.qq "' y='"
        +:+ JS.showQuarters (elementY - (JS.int (h fs) / 2 - 50))
        +:+ JS.qq "' fill='"
        +:+ (if String.eqb (firstColor p) "W"
             then "rgb(255, 255, 255)" else "rgb(0, 0, 0)")
        +:+ JS.qq "' class='markup' style='font-size:"
        +:+ pretty (9 * h fs / 10) +:+ JS.qq "px'>10</text>" +:+ JS.nl,
        if String.eqb (firstColor p) "W"
        then "rgb(255, 255, 255)" else "rgb(0, 0, 0)")
  /\ drawCell fs p xpos ypos elementX elementY (Some "0") markupColor
     = drawCell fs p xpos ypos elementX elementY (Some "10") markupColor.
Proof.
  split; [|reflexivity].
  transitivity
    (Ok (drawStone p elementX elementY black (evencolor p)
         +:+ cellText fs elementX elementY (oddcolor p) "10",
         oddcolor p) : result (string * string)); [reflexivity|].
  unfold drawStone, cellText, evencolor, oddcolor, svgMarkupTextSize.
  change (JS.numGe (JS.parseInt "10") 10) with true. cbv iota.
  destruct (String.eqb (firstColor p) "W"); markup_eq.
Qed.

(** The tests of the [switch] on a token that is one lowercase letter. *)
Lemma lowercase_token_tests c :
  JS.isLower c = true ->
  let t := Some (String c EmptyString) in
  oneOf t ["X"; "B"; "#"] = false
  /\ oneOf t ["O"; "W"; "@"] = false
  /\ oneOf t ["."; ","; "C"; "S"] = false
  /\ JS.parseInt (String c EmptyString) = JS.NaN
  /\ isLetterToken t = true.
Proof.
  intros H.
  destruct c as [[] [] [] [] [] [] [] []];
    vm_compute in H; try discriminate H; vm_compute; repeat split.
Qed.

(** C7: a cell whose token is a lowercase letter gets the intersection
    lines, a disc in the board color and the letter as text.  The link
    map has no part in the markup of the cell: the mark that would carry
    the link color is computed and dropped. *)
Theorem letter_cell_markup
    fs p lm c xpos ypos elementX elementY markupColor :
  JS.isLower c = true ->
  drawCell fs (setLinkmap p lm) xpos ypos elementX elementY
    (Some (String c EmptyString)) markupColor
  = (type ← getIntersectionType p xpos ypos;
     Ok (drawIntersection p elementX elementY black type
         +:+ drawStone p elementX elementY goban goban
         +:+ cellText fs elementX elementY black (String c EmptyString),
         black)).
Proof.
  intros H.
  destruct (lowercase_token_tests c H) as (H1 & H2 & H3 & H4 & H5).
  unfold drawCell. cbv zeta in H1, H2, H3, H5.
  rewrite H1, H2, H3, H5.
  change (JS.toStr (Some (String c EmptyString)))
    with (String c EmptyString).
  rewrite H4.
  cbn [JS.rem2Is JS.numEq orb].
  change (getIntersectionType (setLinkmap p lm) xpos ypos)
    with (getIntersectionType p xpos ypos).
  destruct (getIntersectionType p xpos ypos) as [type|]; [|reflexivity].
  cbn [mbind result_bind]. rewrite append_assoc. reflexivity.
Qed.

Lemma letter_cell_markup_witness :
  JS.isLower "a" = true
  /\ exists p,
       parsedOf enclosedBoard defaultFontSize = Some p
       /\ parsedOf enclosedBoardLinked defaultFontSize
          = Some (setLinkmap p {["a" := "http://example.com"]})
       /\ drawCell defaultFontSize
            (setLinkmap p {["a" := "http://example.com"]}) 1 1
            (elementXOf p 1) (elementYOf p 1) (Some "a") EmptyString
          = (type ← getIntersectionType p 1 1;
             Ok (drawIntersection p (elementXOf p 1) (elementYOf p 1)
                   black type
                 +:+ drawStone p (elementXOf p 1) (elementYOf p 1)
                       goban goban
                 +:+ cellText defaultFontSize (elementXOf p 1)
                       (elementYOf p 1) black "a",
                 black)).
Proof.
  split; [reflexivity|].
  eexists. split; [reflexivity|]. split; [vm_compute; reflexivity|].
  exact (letter_cell_markup defaultFontSize _
           {["a" := "http://example.com"]} "a" 1 1 _ _ EmptyString
           eq_refl).
Defined.
(** ** The links section *)

(** The members of [Object.prototype], by name. *)
Lemma objectPrototype_inherited key :
  JS.objectPrototype key
  = if isInheritedName key then Some (inheritedText key) else None.
Proof.
  unfold JS.objectPrototype, isInheritedName, inheritedNames, inheritedText.
  cbn [List.existsb].
  repeat match goal with
         | |- context [String.eqb key ?s] =>
             destruct (String.eqb_spec key s) as [->|?];
               [vm_compute; reflexivity|]
         end.
  reflexivity.
Qed.

(** The lookup of the loop finds the target of the cell. *)
Lemma linkOf_targetOf p token : linkOf p token = targetOf p token.
Proof.
  unfold linkOf, targetOf. cbv zeta.
  destruct (linkmap p !! JS.toStr token); [reflexivity|].
  apply objectPrototype_inherited.
Qed.















(** ** Documents of the example boards *)

(** The board with a border all around and no link: the links section
    is the text [undefined]. *)
Example enclosedBoard_document :
  render enclosedBoard
  = Ok {| xml :=
            JS.qq "<svg width = '21' height = '55'>" +:+ JS.nl
            +:+ JS.qq "<rect  x='0' y='0' width='21' height = '55' fill = 'rgb(242, 176, 109)'/>"
            +:+ JS.nl
            +:+ JS.qq "<circle cx='10.5' cy = '10.5' r = '8.5' stroke = 'rgb(242, 176, 109)' fill = 'rgb(242, 176, 109)' />"
            +:+ JS.nl +:+ "  "
            +:+ JS.qq "<text x='6.5' y='15' fill='rgb(0, 0, 0)' class='markup' style='font-size:14px'>a</text>"
            +:+ JS.nl
            +:+ "undefined"
            +:+ "</svg>" +:+ JS.nl;
          width := Some 21;
          height := Some 55 |}.
Proof. vm_compute. reflexivity. Qed.

(** The same board with a link on the letter: the markup of the cell is
    the same, and the rectangle of the link follows the text
    [undefined]. *)
Example enclosedBoardLinked_document :
  render enclosedBoardLinked
  = Ok {| xml :=
            JS.qq "<svg width = '21' height = '55'>" +:+ JS.nl
            +:+ JS.qq "<rect  x='0' y='0' width='21' height = '55' fill = 'rgb(242, 176, 109)'/>"
            +:+ JS.nl
            +:+ JS.qq "<circle cx='10.5' cy = '10.5' r = '8.5' stroke = 'rgb(242, 176, 109)' fill = 'rgb(242, 176, 109)' />"
            +:+ JS.nl +:+ "  "
            +:+ JS.qq "<text x='6.5' y='15' fill='rgb(0, 0, 0)' class='markup' style='font-size:14px'>a</text>"
            +:+ JS.nl
            +:+ "undefined"
            +:+ JS.qq "<a href='http://example.com' >" +:+ JS.nl
            +:+ JS.qq "<rect x='2' y='2' width='17' height='17' stroke='rgb(242, 176, 109)' fill='rgb(202, 106, 69)' fill-opacity='0.4' />"
            +:+ JS.nl
            +:+ "</a>" +:+ JS.nl
            +:+ "</svg>" +:+ JS.nl;
          width := Some 21;
          height := Some 55 |}.
Proof. vm_compute. reflexivity. Qed.

(** The cell [0] of a board on which White moves first: a black stone
    and the label [10] in white. *)
Example numberedBoard_zero_cell :
  exists p,
    parsedOf numberedBoard defaultFontSize = Some p
    /\ tokenAt (rows p) 1 2 = Ok (Some "0")
    /\ drawCell defaultFontSize p 2 1 (elementXOf p 2) (elementYOf p 1)
         (Some "0") EmptyString
       = Ok (JS.qq "<circle cx='27.5' cy = '10.5' r = '8.5' stroke = 'rgb(0, 0, 0)' fill = 'rgb(0, 0, 0)' />"
             +:+ JS.nl +:+ "  "
             +:+ JS.qq "<text x='19.5' y='15' fill='rgb(255, 255, 255)' class='markup' style='font-size:14px'>10</text>"
             +:+ JS.nl,
             "rgb(255, 255, 255)").
Proof.
  eexists. split; [reflexivity|]. split; vm_compute; reflexivity.
Qed.

(** The board whose row holds the token [constructor]: the cell is drawn
    as a letter, and its rectangle follows the text [undefined] with the
    text of the inherited member as target. *)
Example prototypeBoard_document :
  render prototypeBoard
  = Ok {| xml :=
            JS.qq "<svg width = '72' height = '55'>" +:+ JS.nl
            +:+ JS.qq "<rect  x='0' y='0' width='72' height = '55' fill = 'rgb(242, 176, 109)'/>"
            +:+ JS.nl
            +:+ JS.qq "<circle cx='10.5' cy = '10.5' r = '8.5' stroke = 'rgb(0, 0, 0)' fill = 'rgb(0, 0, 0)' />"
            +:+ JS.nl +:+ "  "
            +:+ JS.qq "<text x='6.5' y='15' fill='rgb(255, 255, 255)' class='markup' style='font-size:14px'>1</text>"
            +:+ JS.nl
            +:+ JS.qq "<line x1='19' y1='10.5' x2='27.5' y2='10.5' stroke='rgb(0, 0, 0)' />"
            +:+ JS.nl
            +:+ JS.qq "<line x1='36' y1='10.5' x2='27.5' y2='10.5' stroke='rgb(0, 0, 0)' />"
            +:+ JS.nl
            +:+ JS.qq "<circle cx='27.5' cy = '10.5' r = '8.5' stroke = 'rgb(242, 176, 109)' fill = 'rgb(242, 176, 109)' />"
            +:+ JS.nl +:+ "  "
            +:+ JS.qq "<text x='23.5' y='15' fill='rgb(0, 0, 0)' class='markup' style='font-size:14px'>constructor</text>"
            +:+ JS.nl
            +:+ JS.qq "<circle cx='44.5' cy = '10.5' r = '8.5' stroke = 'rgb(0, 0, 0)' fill = 'rgb(255, 255, 255)' />"
            +:+ JS.nl +:+ "  "
            +:+ JS.qq "<text x='40.5' y='15' fill='rgb(0, 0, 0)' class='markup' style='font-size:14px'>2</text>"
            +:+ JS.nl
            +:+ "undefined"
            +:+ JS.qq "<a href='function Object() { [native code] }' >"
            +:+ JS.nl
            +:+ JS.qq "<rect x='19' y='2' width='17' height='17' stroke='rgb(242, 176, 109)' fill='rgb(202, 106, 69)' fill-opacity='0.4' />"
            +:+ JS.nl
            +:+ "</a>" +:+ JS.nl
            +:+ "</svg>" +:+ JS.nl;
          width := Some 72;
          height := Some 55 |}.
Proof. vm_compute. reflexivity. Qed.

(** * Further properties *)

(** ** Border detection and layout *)

Lemma half_of_int d : JS.int d / 2 = 2 * d.
Proof.
  unfold JS.int. replace (4 * d) with (2 * d * 2) by lia.
  apply Z.div_mul. discriminate.
Qed.

(** What [initBoardAndDimensions] leaves in the fields, in terms of the
    grid: the flags, the bounds and the geometry. *)
Lemma initBoardAndDimensions_layout fs color coords size ttl lm diag p :
  initBoardAndDimensions fs color coords size ttl lm diag = Ok p ->
  exists row0 rowS rowE,
    rowAt (rows p) 0 = Some row0
    /\ rowAt (rows p) (startrow p) = Some rowS
    /\ rowAt (rows p) (endrow p) = Some rowE
    /\ topborder p = (if isSentinel (tokenOf row0 1) then 1 else 0)
    /\ startrow p = topborder p
    /\ leftborder p = (if isSentinel (tokenOf rowS 0) then 1 else 0)
    /\ startcol p = leftborder p
    /\ rightborder p
       = (if isSentinel (tokenOf rowE (Z.of_nat (length rowS) - 2))
          then 1 else 0)
    /\ endcol p = Z.of_nat (length rowS) - 2 - rightborder p
    /\ (bottomborder p = 0 \/ bottomborder p = 1)
    /\ coordinates p
       = coords && ((bottomborder p =? 1) || (topborder p =? 1))
         && ((leftborder p =? 1) || (rightborder p =? 1))
    /\ radius p = 2 * JS.floorSqrt (h fs * h fs + w fs * w fs)
    /\ imageWidth p
       = JS.floorSqrt (h fs * h fs + w fs * w fs)
           * (1 + endcol p - startcol p) + 4
         + (if coordinates p then w fs * 2 + 4 else 0)
    /\ imageHeight p
       = JS.floorSqrt (h fs * h fs + w fs * w fs)
           * (1 + endrow p - startrow p) + 4
         + (if coordinates p then h fs + 2 else 0)
    /\ offset_x p = 2 + (if coordinates p then w fs * 2 + 4 else 0)
    /\ offset_y p = 2 + (if coordinates p then h fs + 2 else 0).
Proof.
  unfold initBoardAndDimensions. generalize (normalizeRows diag) as rws.
  intros rws. unfold tokenAt.
  destruct (rowAt rws 0) as [row0|] eqn:R0; cbn [mbind result_bind];
    [|discriminate].
  destruct (rowAt rws (Z.of_nat (length rws) - 1)) as [rowL|] eqn:RL;
    cbn [mbind result_bind];
    [|destruct (isSentinel (tokenOf row0 1)); discriminate].
  destruct (isSentinel (tokenOf row0 1)) eqn:E0;
    destruct (isSentinel (tokenOf rowL 1)) eqn:EL;
    rewrite ?R0, ?RL; cbn [mbind result_bind];
    repeat match goal with
           | |- context [rowAt rws ?i] =>
               let r := fresh "r" in
               destruct (rowAt rws i) as [r|] eqn:?;
               cbn [mbind result_bind]; try discriminate
           | |- context [isSentinel ?t] => destruct (isSentinel t) eqn:?
           end;
    intros H; (try discriminate H); injection H as H; subst p;
    do 3 eexists;
    cbn [rows startrow endrow startcol endcol topborder bottomborder
         leftborder rightborder coordinates radius imageWidth imageHeight
         offset_x offset_y];
    (split; [eassumption|]); (split; [eassumption|]);
    (split; [eassumption|]);
    repeat match goal with
           | H : isSentinel _ = _ |- _ => rewrite ?H; clear H
           end;
    (repeat split; try reflexivity; try (left; reflexivity);
     try (right; reflexivity); try apply half_of_int;
     try (destruct coords; cbn; lia)).
Qed.

(** The instance of a matched header in terms of what the constructor
    computes on the way. *)
Lemma newGoDiagram_parsed input fs d p :
  newGoDiagram input fs = Ok d -> parsed d = Some p ->
  exists m p0 diag lm,
    matchHeader (headerLine input) = Some m
    /\ fold_left scanLine (tl (JS.split JS.lf input)) (EmptyString, ∅)
       = (diag, lm)
    /\ closedByLf diag
    /\ initBoardAndDimensions fs
         (if bool_decide (group1 m = Some "W") then "W" else "B")
         (bool_decide (group2 m <> None))
         (match group3 m with
          | None => JS.Int 19
          | Some ds => JS.parseInt ds
          end)
         (JS.trim (group4 m)) lm diag = Ok p0
    /\ p = (if degenerate fs p0 then setDiagram p0 None else p0).
Proof.
  unfold newGoDiagram, headerLine.
  destruct (matchHeader _) as [m|] eqn:Hm;
    [|intros [= <-]; discriminate].
  destruct (fold_left scanLine _ _) as [diag lm] eqn:E.
  assert (Hc : closedByLf diag).
  { change diag with (fst (diag, lm)). rewrite <- E.
    apply scanLines_closedByLf. left; reflexivity. }
  destruct (initBoardAndDimensions _ _ _ _ _ _ _) as [p0|] eqn:Hp0;
    cbn [mbind result_bind]; [|discriminate].
  intros [= <-]. cbn [parsed]. intros [= <-].
  exists m, p0, diag, lm. repeat split; assumption.
Qed.

(** The fields are unassigned exactly when the header failed. *)
Lemma constructor_parsed_none input fs d :
  newGoDiagram input fs = Ok d -> (parsed d = None <-> headerFails input).
Proof.
  unfold newGoDiagram, headerFails, headerLine.
  destruct (matchHeader _) as [m|] eqn:Hm.
  - destruct (fold_left scanLine _ _) as [diag lm].
    destruct (initBoardAndDimensions _ _ _ _ _ _ _) as [p0|];
      cbn [mbind result_bind]; [|discriminate].
    intros [= <-]. cbn. split; discriminate.
  - intros [= <-]. cbn. split; reflexivity.
Qed.

(** X1: the constructor never throws.  It returns an instance that keeps
    its arguments and the lines of the input, and the fields of the
    diagram are left unassigned exactly when the first line fails the
    header match. *)
Theorem constructor_returns_instance input fs :
  exists d,
    newGoDiagram input fs = Ok d
    /\ fontSize d = fs /\ inputDiagram d = input
    /\ content d = JS.split JS.lf input
    /\ (parsed d = None <-> headerFails input).
Proof.
  destruct (newGoDiagram_returns input fs) as [d Hd]. exists d.
  split; [exact Hd|]. revert Hd. unfold newGoDiagram, headerFails, headerLine.
  destruct (matchHeader _) as [m|] eqn:Hm.
  - destruct (fold_left scanLine _ _) as [diag lm].
    destruct (initBoardAndDimensions _ _ _ _ _ _ _) as [p0|];
      cbn [mbind result_bind]; [|discriminate].
    intros [= <-]. cbn. repeat split; discriminate.
  - intros [= <-]. cbn. repeat split; reflexivity.
Qed.

(** X2: on the grids the constructor builds neither the bottom nor the
    right border is ever seen: both flags are 0, the window runs to the
    last row of the grid and to the column before the last of row
    [startrow].  Coordinates stay enabled exactly when the header has the
    flag [c] and both the top and the left border are present. *)
Theorem constructor_sees_top_and_left_borders_only input fs d p :
  newGoDiagram input fs = Ok d -> parsed d = Some p ->
  bottomborder p = 0 /\ rightborder p = 0
  /\ endrow p = Z.of_nat (length (rows p)) - 1
  /\ (exists rowS, rowAt (rows p) (startrow p) = Some rowS
        /\ endcol p = Z.of_nat (length rowS) - 2)
  /\ exists m, matchHeader (headerLine input) = Some m
       /\ (coordinates p = true <->
           group2 m = Some "c" /\ topborder p = 1 /\ leftborder p = 1).
Proof.
  intros Hd Hp.
  destruct (newGoDiagram_parsed input fs d p Hd Hp)
    as (m & p0 & diag & lm & Hm & Hscan & Hc & Hp0 & ->).
  destruct (initBoardAndDimensions_closedByLf fs
              (if bool_decide (group1 m = Some "W") then "W" else "B")
              (bool_decide (group2 m <> None))
              (match group3 m with
               | None => JS.Int 19 | Some ds => JS.parseInt ds end)
              (JS.trim (group4 m)) lm diag Hc)
    as (p1 & Hp1 & _ & _ & Hb & Hr & He & _).
  rewrite Hp0 in Hp1. injection Hp1 as <-.
  destruct (initBoardAndDimensions_layout _ _ _ _ _ _ _ _ Hp0)
    as (row0 & rowS & rowE & _ & HS & _ & Ht & _ & Hl & _ & _ & Hec & _
        & Hco & _).
  assert (Hg2 : bool_decide (group2 m <> None) = true <-> group2 m = Some "c").
  { revert Hm. unfold matchHeader.
    destruct (JS.stripPrefix "$$" (headerLine input)) as [r|]; [|discriminate].
    destruct (match r with
              | EmptyString => _
              | String c r' => _
              end) as [g1 r1].
    destruct r1 as [|c r1']; [|destruct (Ascii.eqb c "c")];
      intros [= <-]; cbn [group2]; rewrite bool_decide_eq_true;
      split; congruence. }
  assert (Hfields :
            bottomborder p0 = 0 /\ rightborder p0 = 0
            /\ endrow p0 = Z.of_nat (length (rows p0)) - 1
            /\ (exists rowS, rowAt (rows p0) (startrow p0) = Some rowS
                  /\ endcol p0 = Z.of_nat (length rowS) - 2)
            /\ exists m, matchHeader (headerLine input) = Some m
                 /\ (coordinates p0 = true <->
                     group2 m = Some "c" /\ topborder p0 = 1
                     /\ leftborder p0 = 1)).
  { split; [exact Hb|]. split; [exact Hr|]. split; [exact He|].
    split; [exists rowS; split; [exact HS | lia]|].
    exists m. split; [exact Hm|]. rewrite Hco, Hb, Hr, <- Hg2.
    rewrite Ht, Hl.
    destruct (bool_decide (group2 m <> None));
      destruct (isSentinel (tokenOf row0 1));
      destruct (isSentinel (tokenOf rowS 0)); cbn;
      intuition (try discriminate; try reflexivity). }
  destruct (degenerate fs p0); exact Hfields.
Qed.

Lemma constructor_sees_top_and_left_borders_only_witness :
  exists p,
    parsed (instanceOf enclosedBoard defaultFontSize) = Some p
    /\ bottomborder p = 0 /\ rightborder p = 0
    /\ endrow p = Z.of_nat (length (rows p)) - 1.
Proof.
  assert (Hd : newGoDiagram enclosedBoard defaultFontSize
               = Ok (instanceOf enclosedBoard defaultFontSize))
    by reflexivity.
  eexists. split; [reflexivity|].
  destruct (constructor_sees_top_and_left_borders_only _ _ _ _ Hd eq_refl)
    as (Hb & Hr & He & _).
  repeat split; assumption.
Defined.


(** X3: every border flag is 0 or 1 and follows the sentinel at its
    probe: the second token of the first row for the top border, the
    first token of row [startrow] for the left border, and for the right
    border the token of row [endrow] at the column before the last of row
    [startrow].  The start row and the start column are the top and the
    left flag. *)
Theorem border_flags_follow_sentinels fs color coords size ttl lm diag p :
  initBoardAndDimensions fs color coords size ttl lm diag = Ok p ->
  exists row0 rowS rowE,
    rowAt (rows p) 0 = Some row0
    /\ rowAt (rows p) (startrow p) = Some rowS
    /\ rowAt (rows p) (endrow p) = Some rowE
    /\ topborder p = (if isSentinel (tokenOf row0 1) then 1 else 0)
    /\ leftborder p = (if isSentinel (tokenOf rowS 0) then 1 else 0)
    /\ rightborder p
       = (if isSentinel (tokenOf rowE (Z.of_nat (length rowS) - 2))
          then 1 else 0)
    /\ (bottomborder p = 0 \/ bottomborder p = 1)
    /\ startrow p = topborder p /\ startcol p = leftborder p
    /\ endcol p = Z.of_nat (length rowS) - 2 - rightborder p.
Proof.
  intros H.
  destruct (initBoardAndDimensions_layout _ _ _ _ _ _ _ _ H)
    as (row0 & rowS & rowE & H0 & HS & HE & Ht & Hsr & Hl & Hsc & Hr & Hec
        & Hb & _).
  exists row0, rowS, rowE. repeat split; assumption.
Qed.

Lemma border_flags_follow_sentinels_witness :
  exists p,
    initBoardAndDimensions defaultFontSize "B" false (JS.Int 19)
      EmptyString ∅ ("%%%%" +:+ JS.nl +:+ "%X%%" +:+ JS.nl +:+ "%%%%") = Ok p
    /\ topborder p = 1 /\ leftborder p = 1 /\ rightborder p = 1
    /\ exists row0 rowS rowE,
         rowAt (rows p) 0 = Some row0
         /\ rowAt (rows p) (startrow p) = Some rowS
         /\ rowAt (rows p) (endrow p) = Some rowE
         /\ topborder p = (if isSentinel (tokenOf row0 1) then 1 else 0)
         /\ leftborder p = (if isSentinel (tokenOf rowS 0) then 1 else 0)
         /\ rightborder p
            = (if isSentinel (tokenOf rowE (Z.of_nat (length rowS) - 2))
               then 1 else 0)
         /\ (bottomborder p = 0 \/ bottomborder p = 1)
         /\ startrow p = topborder p /\ startcol p = leftborder p
         /\ endcol p = Z.of_nat (length rowS) - 2 - rightborder p.
Proof.
  eexists. split; [reflexivity|]. do 3 (split; [reflexivity|]).
  exact (border_flags_follow_sentinels defaultFontSize "B" false
           (JS.Int 19) EmptyString ∅
           ("%%%%" +:+ JS.nl +:+ "%X%%" +:+ JS.nl +:+ "%%%%") _ eq_refl).
Defined.

(** X4: requesting coordinates changes nothing but the margins.  The same
    body laid out with and without the request has the same grid, bounds
    and flags; coordinates stay enabled exactly when a horizontal and a
    vertical border are present, and then the image is wider by [2w + 4]
    and higher by [h + 2], with the offsets moved by the same amounts. *)
Theorem coordinates_add_margins fs color size ttl lm diag p0 p1 :
  initBoardAndDimensions fs color false size ttl lm diag = Ok p0 ->
  initBoardAndDimensions fs color true size ttl lm diag = Ok p1 ->
  coordinates p0 = false
  /\ rows p1 = rows p0
  /\ startrow p1 = startrow p0 /\ endrow p1 = endrow p0
  /\ startcol p1 = startcol p0 /\ endcol p1 = endcol p0
  /\ radius p1 = radius p0
  /\ (coordinates p1 = true <->
      (topborder p1 = 1 \/ bottomborder p1 = 1)
      /\ (leftborder p1 = 1 \/ rightborder p1 = 1))
  /\ (coordinates p1 = true ->
      imageWidth p1 = imageWidth p0 + (w fs * 2 + 4)
      /\ imageHeight p1 = imageHeight p0 + (h fs + 2)
      /\ offset_x p1 = offset_x p0 + (w fs * 2 + 4)
      /\ offset_y p1 = offset_y p0 + (h fs + 2))
  /\ (coordinates p1 = false ->
      imageWidth p1 = imageWidth p0 /\ imageHeight p1 = imageHeight p0
      /\ offset_x p1 = offset_x p0 /\ offset_y p1 = offset_y p0).
Proof.
  unfold initBoardAndDimensions. generalize (normalizeRows diag) as rws.
  intros rws.
  repeat match goal with
         | |- context [tokenAt ?a ?b ?c] =>
             destruct (tokenAt a b c); cbn [mbind result_bind];
             try discriminate
         | |- context [isSentinel ?t] => destruct (isSentinel t)
         | |- context [rowAt ?a ?b] =>
             destruct (rowAt a b); cbn [mbind result_bind];
             try discriminate
         end;
    intros H0 H1; (try discriminate H0);
    injection H0 as H0; injection H1 as H1; subst p0 p1;
    cbn; repeat split; intros; try discriminate; try lia;
    try (left; reflexivity); try (right; reflexivity);
    intuition (try discriminate; try lia).
Qed.

Lemma coordinates_add_margins_witness :
  exists p0 p1,
    initBoardAndDimensions defaultFontSize "B" false (JS.Int 19)
      EmptyString ∅ ("%%%" +:+ JS.nl +:+ "%X." +:+ JS.nl) = Ok p0
    /\ initBoardAndDimensions defaultFontSize "B" true (JS.Int 19)
         EmptyString ∅ ("%%%" +:+ JS.nl +:+ "%X." +:+ JS.nl) = Ok p1
    /\ coordinates p1 = true
    /\ imageWidth p0 = 21 /\ imageHeight p0 = 38
    /\ imageWidth p1 = imageWidth p0 + (w defaultFontSize * 2 + 4)
    /\ imageHeight p1 = imageHeight p0 + (h defaultFontSize + 2)
    /\ offset_x p1 = offset_x p0 + (w defaultFontSize * 2 + 4)
    /\ offset_y p1 = offset_y p0 + (h defaultFontSize + 2).
Proof.
  eexists. eexists. split; [reflexivity|]. split; [reflexivity|].
  split; [reflexivity|]. split; [reflexivity|]. split; [reflexivity|].
  exact (proj1 (proj2 (proj2 (proj2 (proj2 (proj2 (proj2 (proj2 (proj2
           (coordinates_add_margins defaultFontSize "B" (JS.Int 19)
              EmptyString ∅ ("%%%" +:+ JS.nl +:+ "%X." +:+ JS.nl) _ _
              eq_refl eq_refl))))))))) eq_refl).
Defined.

(** ** The window of a valid diagram *)

Lemma rowAt_in_range (rws : list (list string)) i :
  0 <= i < Z.of_nat (length rws) -> exists row, rowAt rws i = Some row.
Proof.
  intros H. unfold rowAt. destruct (Z.ltb_spec i 0); [lia|].
  destruct (lookup_lt_is_Some_2 rws (Z.to_nat i)) as [row Hr]; [lia|].
  now exists row.
Qed.

(** X5: in a valid diagram the window lies inside the grid.  The start
    row and column are 0 or 1, the end row is the last row of the grid,
    the image is at least one font box, and every row of the window
    exists, so reading a cell of the window never throws. *)
Theorem window_inside_grid input fs d p :
  newGoDiagram input fs = Ok d -> parsed d = Some p -> valid d ->
  0 <= startrow p <= 1 /\ 0 <= startcol p <= 1
  /\ startrow p <= endrow p /\ endrow p = Z.of_nat (length (rows p)) - 1
  /\ startcol p <= endcol p
  /\ w fs <= imageWidth p /\ h fs <= imageHeight p
  /\ forall ypos xpos,
       startrow p <= ypos <= endrow p ->
       exists t, tokenAt (rows p) ypos xpos = Ok t.
Proof.
  intros Hd Hp Hv.
  destruct (newGoDiagram_parsed input fs d p Hd Hp)
    as (m & p0 & diag & lm & Hm & Hscan & Hc & Hp0 & Hpp).
  destruct (initBoardAndDimensions_closedByLf fs
              (if bool_decide (group1 m = Some "W") then "W" else "B")
              (bool_decide (group2 m <> None))
              (match group3 m with
               | None => JS.Int 19 | Some ds => JS.parseInt ds end)
              (JS.trim (group4 m)) lm diag Hc)
    as (p1 & Hp1 & _ & _ & _ & _ & He & _).
  rewrite Hp0 in Hp1. injection Hp1 as <-.
  destruct (initBoardAndDimensions_layout _ _ _ _ _ _ _ _ Hp0)
    as (row0 & rowS & rowE & _ & _ & _ & Ht & Hsr & Hl & Hsc & _).
  unfold valid, diagramOf in Hv. rewrite Hp in Hv.
  destruct (degenerate fs p0) eqn:Hdeg;
    [subst p; cbn in Hv; contradiction|]. subst p.
  unfold degenerate in Hdeg.
  repeat (apply orb_false_elim in Hdeg; destruct Hdeg as [Hdeg ?]).
  repeat match goal with
         | H : (_ <? _) = false |- _ => apply Z.ltb_ge in H
         end.
  assert (Hs01 : 0 <= startrow p0 <= 1)
    by (rewrite Hsr, Ht; destruct (isSentinel (tokenOf row0 1)); lia).
  assert (Hc01 : 0 <= startcol p0 <= 1)
    by (rewrite Hsc, Hl; destruct (isSentinel (tokenOf rowS 0)); lia).
  repeat split; try lia.
  intros ypos xpos Hy. unfold tokenAt.
  destruct (rowAt_in_range (rows p0) ypos) as [row ->]; [lia|].
  eexists; reflexivity.
Qed.

Lemma window_inside_grid_witness :
  valid (instanceOf enclosedBoard defaultFontSize)
  /\ exists p,
       parsed (instanceOf enclosedBoard defaultFontSize) = Some p
       /\ 0 <= startrow p <= 1 /\ 0 <= startcol p <= 1
       /\ startrow p <= endrow p
       /\ endrow p = Z.of_nat (length (rows p)) - 1
       /\ startcol p <= endcol p
       /\ w defaultFontSize <= imageWidth p
       /\ h defaultFontSize <= imageHeight p
       /\ forall ypos xpos,
            startrow p <= ypos <= endrow p ->
            exists t, tokenAt (rows p) ypos xpos = Ok t.
Proof.
  assert (Hd : newGoDiagram enclosedBoard defaultFontSize
               = Ok (instanceOf enclosedBoard defaultFontSize))
    by reflexivity.
  assert (Hv : valid (instanceOf enclosedBoard defaultFontSize))
    by (vm_compute; discriminate).
  split; [exact Hv|]. eexists. split; [reflexivity|].
  exact (window_inside_grid _ _ _ _ Hd eq_refl Hv).
Defined.

(** ** Scanning the lines after the header *)

Lemma trimEnd_cons c s :
  JS.isWhite c = false -> JS.trimEnd (String c s) = String c (JS.trimEnd s).
Proof.
  intros H. cbn [JS.trimEnd]. rewrite H. now destruct (JS.trimEnd s).
Qed.

Lemma stripPrefix_directive line r :
  JS.stripPrefix "$$" line = Some r <-> line = String "$" (String "$" r).
Proof.
  destruct line as [|c1 [|c2 line]]; cbn [JS.stripPrefix];
    try (split; discriminate).
  - destruct (Ascii.eqb "$" c1); split; discriminate.
  - destruct (Ascii.eqb_spec "$" c1) as [<-|H1];
      [|split; [discriminate|intros [= ? ? ?]; congruence]].
    destruct (Ascii.eqb_spec "$" c2) as [<-|H2];
      [|split; [discriminate|intros [= ? ?]; congruence]].
    split; intros [= <-]; reflexivity.
Qed.

(** Trimming a line that starts with the directive prefix only trims
    what follows the prefix. *)
Lemma trim_directive r :
  JS.trim (String "$" (String "$" r)) = String "$" (String "$" (JS.trimEnd r)).
Proof.
  unfold JS.trim, JS.trimStart. cbn [JS.dropWhile].
  change (JS.isWhite "$") with false. cbn iota.
  now rewrite !trimEnd_cons by reflexivity.
Qed.

Lemma dropWhile_trimEnd r c r' :
  JS.dropWhile JS.isWhite r = String c r' ->
  JS.dropWhile JS.isWhite (JS.trimEnd r) = String c (JS.trimEnd r').
Proof.
  induction r as [|a r IH]; [discriminate|]. cbn [JS.dropWhile].
  destruct (JS.isWhite a) eqn:Ha.
  - intros H. specialize (IH H). cbn [JS.trimEnd]. rewrite Ha.
    destruct (JS.trimEnd r) as [|b t] eqn:E; [discriminate|].
    cbn [JS.dropWhile]. rewrite Ha. exact IH.
  - intros [= <- <-]. rewrite trimEnd_cons by exact Ha.
    cbn [JS.dropWhile]. now rewrite Ha.
Qed.

(** X6: a line is never both a content line and a link line: a line that
    the link pattern matches is refused by the content pattern, so every
    line adds to the diagram body, or to the link map, or to neither. *)
Theorem link_line_is_not_content line :
  matchLink line = None \/ matchContent (JS.trim line) = None.
Proof.
  unfold matchLink.
  destruct (JS.stripPrefix "$$" line) as [r|] eqn:Hp; [|left; reflexivity].
  apply stripPrefix_directive in Hp. subst line.
  destruct (JS.dropWhile JS.isWhite r) as [|c r'] eqn:Hd; [left; reflexivity|].
  destruct (Ascii.eqb_spec c "[") as [->|Hc]; [|left; reflexivity].
  right. rewrite trim_directive. unfold matchContent. cbn [JS.stripPrefix].
  change (Ascii.eqb "$" "$") with true. cbn iota.
  now rewrite (dropWhile_trimEnd _ _ _ Hd).
Qed.

(** X7: a line whose trimmed text does not start with the directive
    prefix is ignored: it changes neither the diagram body nor the link
    map. *)
Theorem line_without_prefix_is_ignored st line :
  JS.stripPrefix "$$" (JS.trim line) = None -> scanLine st line = st.
Proof.
  intros H. destruct st as [diag lm]. unfold scanLine, matchContent.
  rewrite H. unfold matchLink.
  destruct (JS.stripPrefix "$$" line) as [r|] eqn:Hp; [|reflexivity].
  apply stripPrefix_directive in Hp. subst line.
  rewrite trim_directive in H. cbn in H. discriminate.
Qed.

Lemma line_without_prefix_is_ignored_witness :
  JS.stripPrefix "$$" (JS.trim "  a remark, not a row") = None
  /\ scanLine ("+---+" +:+ JS.nl, ∅) "  a remark, not a row"
     = ("+---+" +:+ JS.nl, ∅).
Proof.
  split; [reflexivity|].
  exact (line_without_prefix_is_ignored _ "  a remark, not a row" eq_refl).
Defined.

(** A link line sets the entry of its anchor and no other one; a line
    that is no accepted link line leaves the link map as it was. *)
Lemma scanLine_linkmap st line k :
  (scanLine st line).2 !! k
  = match matchLink line with
    | Some (m1, m2) =>
        if isAnchor (JS.trim m1) && bool_decide (JS.trim m1 = k)
        then Some (JS.trim m2) else st.2 !! k
    | None => st.2 !! k
    end.
Proof.
  destruct st as [diag lm]. unfold scanLine. cbn [snd].
  destruct (matchLink line) as [[m1 m2]|]; [|reflexivity].
  destruct (isAnchor (JS.trim m1)); [|reflexivity]. cbn [andb].
  case_bool_decide as Hk.
  - subst k. apply lookup_insert_eq.
  - now apply lookup_insert_ne.
Qed.

(** X8: the last accepted link line of an anchor wins: after scanning
    lines that end with a link line for an anchor, the link map holds the
    trimmed target of that line for the anchor, whatever came before. *)
Theorem last_link_line_wins ls line st m1 m2 :
  matchLink line = Some (m1, m2) -> isAnchor (JS.trim m1) = true ->
  (fold_left scanLine (ls ++ [line]) st).2 !! JS.trim m1
  = Some (JS.trim m2).
Proof.
  intros Hm Ha. rewrite fold_left_app. cbn [fold_left].
  rewrite scanLine_linkmap, Hm, Ha. cbn [andb].
  now rewrite bool_decide_eq_true_2.
Qed.

Lemma last_link_line_wins_witness :
  matchLink "$$ [a|http://new.example]"
  = Some ("a", "http://new.example")
  /\ isAnchor (JS.trim "a") = true
  /\ (fold_left scanLine
        (["$$ [a|http://old.example]"; "$$ | a |"]
         ++ ["$$ [a|http://new.example]"])%list
        (EmptyString, ∅)).2 !! JS.trim "a"
     = Some (JS.trim "http://new.example").
Proof.
  split; [reflexivity|]. split; [reflexivity|].
  exact (last_link_line_wins ["$$ [a|http://old.example]"; "$$ | a |"]
           "$$ [a|http://new.example]" (EmptyString, ∅)
           "a" "http://new.example" eq_refl eq_refl).
Defined.

Lemma scanLines_keys ls st :
  (forall k, is_Some (st.2 !! k) -> isAnchor k = true) ->
  forall k, is_Some ((fold_left scanLine ls st).2 !! k) -> isAnchor k = true.
Proof.
  revert st. induction ls as [|line ls IH]; intros st Hst; [exact Hst|].
  cbn [fold_left]. apply IH. intros k. rewrite scanLine_linkmap.
  destruct (matchLink line) as [[m1 m2]|]; [|apply Hst].
  destruct (isAnchor (JS.trim m1)) eqn:Ha; [|apply Hst]. cbn [andb].
  case_bool_decide as Hk; [now subst k | apply Hst].
Qed.

Lemma inheritedNames_long t :
  In t inheritedNames -> (1 < String.length t)%nat.
Proof.
  unfold inheritedNames. intros H.
  repeat (destruct H as [<-|H]; [cbn; lia|]). destruct H.
Qed.

(** X9: the keys of the link map are anchors: one character among a-z,
    0-9 and W B @ # C S.  A token is linked exactly when it is such a
    key or spells the name of one of the twelve members that the link
    map inherits from [Object.prototype], which the lookup of the loop
    reaches as well.  A token of one character is linked only through a
    link line, with the target stored for it, and a cell beyond the end
    of its row never is. *)
Theorem linked_tokens_are_keys_or_inherited_names input fs d p :
  newGoDiagram input fs = Ok d -> parsed d = Some p ->
  (forall k url, linkmap p !! k = Some url -> isAnchor k = true)
  /\ (forall t,
        linkOf p (Some t) <> None
        <-> (isAnchor t = true /\ linkmap p !! t <> None)
            \/ In t inheritedNames)
  /\ (forall c url,
        linkOf p (Some (String c EmptyString)) = Some url ->
        isAnchor (String c EmptyString) = true
        /\ linkmap p !! String c EmptyString = Some url)
  /\ linkOf p None = None.
Proof.
  intros Hd Hp.
  destruct (newGoDiagram_parsed input fs d p Hd Hp)
    as (m & p0 & diag & lm & Hm & Hscan & Hc & Hp0 & Hpp).
  destruct (initBoardAndDimensions_fields _ _ _ _ _ _ _ _ Hp0)
    as (_ & _ & _ & Hlm & _).
  assert (Hl : linkmap p = lm)
    by (subst p; destruct (degenerate fs p0); exact Hlm).
  assert (Hkeys : forall k url, linkmap p !! k = Some url -> isAnchor k = true).
  { intros k url Hk. rewrite Hl in Hk.
    apply (scanLines_keys (tl (JS.split JS.lf input)) (EmptyString, ∅)).
    - intros k' [v Hv]. cbn in Hv. rewrite lookup_empty in Hv. discriminate.
    - rewrite Hscan. cbn [snd]. now exists url. }
  assert (Hin : forall t, isInheritedName t = true <-> In t inheritedNames).
  { intros t. unfold isInheritedName. rewrite List.existsb_exists. split.
    - intros (name & Hn & Heq). apply String.eqb_eq in Heq. now subst name.
    - intros Hn. exists t. split; [exact Hn | apply String.eqb_refl]. }
  split; [exact Hkeys|]. split; [|split].
  - intros t. rewrite linkOf_targetOf. unfold targetOf. cbv zeta.
    cbn [JS.toStr default from_option id].
    destruct (linkmap p !! t) as [url|] eqn:Ht.
    + split; [|discriminate]. intros _. left.
      split; [exact (Hkeys t url Ht) | discriminate].
    + destruct (isInheritedName t) eqn:Ei.
      * split; [|discriminate]. intros _. right. now apply Hin.
      * split; [intros H; now contradict H|].
        intros [[_ H]|H]; [now contradict H|].
        apply Hin in H. congruence.
  - intros c url. rewrite linkOf_targetOf. unfold targetOf. cbv zeta.
    cbn [JS.toStr default from_option id].
    destruct (linkmap p !! String c EmptyString) as [u|] eqn:Ht.
    + intros [= <-]. split; [exact (Hkeys _ u Ht) | reflexivity].
    + destruct (isInheritedName (String c EmptyString)) eqn:Ei;
        [|discriminate].
      apply Hin, inheritedNames_long in Ei. cbn in Ei. lia.
  - rewrite linkOf_targetOf. unfold targetOf. cbv zeta.
    cbn [JS.toStr default from_option id].
    destruct (linkmap p !! "undefined") as [u|] eqn:Ht; [|reflexivity].
    apply Hkeys in Ht. discriminate Ht.
Qed.

Lemma linked_tokens_are_keys_or_inherited_names_witness :
  exists p,
    parsed (instanceOf enclosedBoardLinked defaultFontSize) = Some p
    /\ linkmap p !! "a" = Some "http://example.com"
    /\ linkOf p (Some "a") = Some "http://example.com"
    /\ linkOf p (Some "constructor")
       = Some "function Object() { [native code] }"
    /\ (forall k url, linkmap p !! k = Some url -> isAnchor k = true)
    /\ (forall t,
          linkOf p (Some t) <> None
          <-> (isAnchor t = true /\ linkmap p !! t <> None)
              \/ In t inheritedNames).
Proof.
  assert (Hd : newGoDiagram enclosedBoardLinked defaultFontSize
               = Ok (instanceOf enclosedBoardLinked defaultFontSize))
    by reflexivity.
  eexists. split; [reflexivity|]. split; [vm_compute; reflexivity|].
  split; [vm_compute; reflexivity|]. split; [vm_compute; reflexivity|].
  destruct (linked_tokens_are_keys_or_inherited_names _ _ _ _ Hd eq_refl)
    as (H1 & H2 & _).
  split; assumption.
Defined.

(** ** The title *)

Lemma charsOf_append a b : charsOf (a +:+ b) = (charsOf a ++ charsOf b)%list.
Proof.
  induction a as [|c a IH]; [reflexivity|].
  rewrite append_cons. cbn [charsOf list_ascii_of_string app].
  f_equal. exact IH.
Qed.

(** The six shapes of a replacement. *)
Lemma escapeChar_cases c :
  (c = "&"%char /\ escapeChar c = "&amp;")
  \/ (c = "<"%char /\ escapeChar c = "&lt;")
  \/ (c = ">"%char /\ escapeChar c = "&gt;")
  \/ (c = JS.dquote /\ escapeChar c = "&quot;")
  \/ (c = "'"%char /\ escapeChar c = "&#039;")
  \/ (c <> "&"%char /\ isRawSpecial c = false
      /\ escapeChar c = String c EmptyString).
Proof.
  unfold escapeChar, isRawSpecial.
  destruct (Ascii.eqb_spec c "&"); [subst; tauto|].
  destruct (Ascii.eqb_spec c "<"); [subst; tauto|].
  destruct (Ascii.eqb_spec c ">"); [subst; tauto|].
  destruct (Ascii.eqb_spec c JS.dquote); [subst; tauto|].
  destruct (Ascii.eqb_spec c "'"); [subst; tauto|].
  repeat right. split; [assumption|]. split; reflexivity.
Qed.

(** X10: the escaped text holds no raw [<], [>], double quote or
    apostrophe, whatever the text. *)
Theorem htmlspecialchars_leaves_no_raw_special text :
  Forall (fun c => isRawSpecial c = false) (charsOf (htmlspecialchars text)).
Proof.
  induction text as [|c text IH]; [constructor|].
  cbn [htmlspecialchars]. rewrite charsOf_append. apply Forall_app. split;
    [|exact IH].
  destruct (escapeChar_cases c)
    as [[_ ->]|[[_ ->]|[[_ ->]|[[_ ->]|[[_ ->]|(_ & Hs & ->)]]]]];
    repeat constructor. exact Hs.
Qed.

Lemma escapeChar_append_inj c1 c2 r1 r2 :
  escapeChar c1 +:+ r1 = escapeChar c2 +:+ r2 -> c1 = c2 /\ r1 = r2.
Proof.
  destruct (escapeChar_cases c1)
    as [[-> ->]|[[-> ->]|[[-> ->]|[[-> ->]|[[-> ->]|(N1 & _ & ->)]]]]];
    destruct (escapeChar_cases c2)
      as [[-> ->]|[[-> ->]|[[-> ->]|[[-> ->]|[[-> ->]|(N2 & _ & ->)]]]]];
    rewrite ?append_cons, ?append_nil_l; intros H;
    try discriminate H;
    try (injection H as H; subst; split; reflexivity);
    try (injection H as H1 H2; congruence).
Qed.

(** X11: escaping loses nothing: two texts with the same escaped text are
    the same text. *)
Theorem htmlspecialchars_injective s t :
  htmlspecialchars s = htmlspecialchars t -> s = t.
Proof.
  revert t. induction s as [|c s IH]; intros [|c' t]; cbn [htmlspecialchars].
  - reflexivity.
  - destruct (escapeChar_cases c')
      as [[_ ->]|[[_ ->]|[[_ ->]|[[_ ->]|[[_ ->]|(_ & _ & ->)]]]]];
      discriminate.
  - destruct (escapeChar_cases c)
      as [[_ ->]|[[_ ->]|[[_ ->]|[[_ ->]|[[_ ->]|(_ & _ & ->)]]]]];
      discriminate.
  - intros H. apply escapeChar_append_inj in H as [-> H].
    f_equal. now apply IH.
Qed.

Lemma htmlspecialchars_injective_witness :
  htmlspecialchars "a < b & c" = htmlspecialchars "a < b & c"
  /\ htmlspecialchars "a < b & c" = "a &lt; b &amp; c".
Proof.
  split; [|reflexivity].
  exact (f_equal htmlspecialchars
           (htmlspecialchars_injective "a < b & c" "a < b & c" eq_refl)).
Defined.

(** X12: [getTitle] throws when the first line failed the header match,
    the title being unassigned; when the header matched it returns the
    escaped rest of the header line, trimmed, also for a diagram that the
    validity test refused. *)
Theorem getTitle_of_instance input fs d :
  newGoDiagram input fs = Ok d ->
  match matchHeader (headerLine input) with
  | None => getTitle d = TypeError
  | Some m => getTitle d = Ok (htmlspecialchars (JS.trim (group4 m)))
  end.
Proof.
  intros Hd. unfold getTitle.
  destruct (parsed d) as [p|] eqn:Hp.
  - destruct (newGoDiagram_parsed input fs d p Hd Hp)
      as (m & p0 & diag & lm & Hm & _ & _ & Hp0 & Hpp).
    rewrite Hm.
    destruct (initBoardAndDimensions_fields _ _ _ _ _ _ _ _ Hp0)
      as (_ & Ht & _).
    assert (title p = JS.trim (group4 m))
      by (subst p; destruct (degenerate fs p0); exact Ht).
    congruence.
  - destruct (constructor_parsed_none input fs d Hd) as [H _].
    specialize (H Hp). unfold headerFails in H. now rewrite H.
Qed.

Lemma getTitle_of_instance_witness :
  getTitle (instanceOf "$$Wc Joseki <1>" defaultFontSize)
  = Ok "Joseki &lt;1&gt;"
  /\ getTitle (instanceOf "no header" defaultFontSize) = TypeError.
Proof.
  split.
  - exact (getTitle_of_instance "$$Wc Joseki <1>" defaultFontSize _ eq_refl).
  - exact (getTitle_of_instance "no header" defaultFontSize _ eq_refl).
Defined.

(** ** Probing the neighbours *)

Lemma rowAt_Some_range (rws : list (list string)) i row :
  rowAt rws i = Some row -> 0 <= i < Z.of_nat (length rws).
Proof.
  unfold rowAt. destruct (Z.ltb_spec i 0); [discriminate|].
  intros Hl. apply lookup_lt_Some in Hl. lia.
Qed.

Lemma rowAt_None_range (rws : list (list string)) i :
  rowAt rws i = None <-> ~ (0 <= i < Z.of_nat (length rws)).
Proof.
  split.
  - intros H Hr. destruct (rowAt_in_range rws i Hr) as [row Hrow].
    congruence.
  - intros H. destruct (rowAt rws i) as [row|] eqn:E; [|reflexivity].
    apply rowAt_Some_range in E. contradiction.
Qed.

(** X13: [getIntersectionType] returns exactly when the rows above and
    below the cell exist; it throws for a cell of the first or of the
    last row of the grid.  The type it returns names the neighbours that
    are the sentinel: U for the cell above, B below, L left, R right, so
    [drawIntersection] leaves out the segments towards those neighbours
    and no other. *)
Theorem getIntersectionType_names_sentinel_neighbours p x y :
  (1 <= y /\ y + 1 < Z.of_nat (length (rows p)) ->
   exists up row down type,
     rowAt (rows p) (y - 1) = Some up /\ rowAt (rows p) y = Some row
     /\ rowAt (rows p) (y + 1) = Some down
     /\ getIntersectionType p x y = Ok type
     /\ JS.contains "U" type = isSentinel (tokenOf up x)
     /\ JS.contains "B" type = isSentinel (tokenOf down x)
     /\ JS.contains "L" type = isSentinel (tokenOf row (x - 1))
     /\ JS.contains "R" type = isSentinel (tokenOf row (x + 1)))
  /\ (~ (1 <= y /\ y + 1 < Z.of_nat (length (rows p))) ->
      getIntersectionType p x y = TypeError).
Proof.
  split.
  - intros [H1 H2].
    destruct (rowAt_in_range (rows p) (y - 1)) as [up Hu]; [lia|].
    destruct (rowAt_in_range (rows p) y) as [row Hr]; [lia|].
    destruct (rowAt_in_range (rows p) (y + 1)) as [down Hd]; [lia|].
    exists up, row, down. unfold getIntersectionType, tokenAt.
    rewrite Hu, Hr, Hd. cbn [mbind result_bind].
    eexists. do 3 (split; [reflexivity|]). split; [reflexivity|].
    destruct (isSentinel (tokenOf up x)), (isSentinel (tokenOf down x)),
      (isSentinel (tokenOf row (x - 1))), (isSentinel (tokenOf row (x + 1)));
      repeat split.
  - intros H. unfold getIntersectionType, tokenAt.
    destruct (rowAt (rows p) (y - 1)) as [up|] eqn:Hu; [|reflexivity].
    cbn [mbind result_bind].
    destruct (rowAt (rows p) (y + 1)) as [down|] eqn:Hd; [|reflexivity].
    apply rowAt_Some_range in Hu, Hd. lia.
Qed.

Lemma getIntersectionType_names_sentinel_neighbours_witness :
  exists p,
    parsedOf enclosedBoard defaultFontSize = Some p
    /\ (1 <= 1 /\ 1 + 1 < Z.of_nat (length (rows p)))
    /\ getIntersectionType p 1 1 = Ok "UBLR"
    /\ exists up row down type,
         rowAt (rows p) (1 - 1) = Some up /\ rowAt (rows p) 1 = Some row
         /\ rowAt (rows p) (1 + 1) = Some down
         /\ getIntersectionType p 1 1 = Ok type
         /\ JS.contains "U" type = isSentinel (tokenOf up 1)
         /\ JS.contains "B" type = isSentinel (tokenOf down 1)
         /\ JS.contains "L" type = isSentinel (tokenOf row (1 - 1))
         /\ JS.contains "R" type = isSentinel (tokenOf row (1 + 1)).
Proof.
  destruct (parsedOf enclosedBoard defaultFontSize) as [p|] eqn:E;
    [|vm_compute in E; discriminate].
  exists p. split; [reflexivity|].
  assert (Hp : rows p = [["%"; "%"; "%"; "%"; "%"]; ["%"; "a"; "%"];
                         ["%"; "%"; "%"; "%"; "%"]; []])
    by (vm_compute in E; injection E as <-; reflexivity).
  assert (Hr : 1 <= 1 /\ 1 + 1 < Z.of_nat (length (rows p)))
    by (rewrite Hp; cbn; lia).
  split; [exact Hr|].
  split; [unfold getIntersectionType; rewrite Hp; reflexivity|].
  exact (proj1 (getIntersectionType_names_sentinel_neighbours p 1 1) Hr).
Defined.

(** ** When the renderer throws *)

Lemma In_range lo hi i : In i (range lo hi) <-> lo <= i <= hi.
Proof.
  unfold range. rewrite List.in_map_iff. split.
  - intros (k & <- & Hk). apply List.in_seq in Hk. lia.
  - intros H. exists (Z.to_nat (i - lo)). split; [lia|].
    apply List.in_seq. lia.
Qed.

(** A loop throws exactly when one of its iterations does, provided
    that whether an iteration throws does not depend on the state. *)
Lemma forEach_outcome {S : Type} (body : Z -> S -> result S)
    (throws : Z -> bool) :
  (forall i st,
     if throws i then body i st = TypeError
     else exists st', body i st = Ok st') ->
  forall l st,
    if List.existsb throws l then forEach body l st = TypeError
    else exists st', forEach body l st = Ok st'.
Proof.
  intros Hb. induction l as [|i l IH]; intros st; cbn [List.existsb forEach].
  - eexists; reflexivity.
  - specialize (Hb i st). destruct (throws i); cbn [orb].
    + now rewrite Hb.
    + destruct Hb as [st1 ->]. cbn [mbind result_bind]. apply IH.
Qed.

(** The [switch] throws exactly where the probe of the neighbours does. *)
Lemma drawCell_outcome fs p xpos ypos elementX elementY curchar markupColor :
  if probes curchar
     && match getIntersectionType p xpos ypos with
        | Ok _ => false
        | TypeError => true
        end
  then drawCell fs p xpos ypos elementX elementY curchar markupColor
       = TypeError
  else exists r,
         drawCell fs p xpos ypos elementX elementY curchar markupColor = Ok r.
Proof.
  unfold drawCell, probes.
  destruct (oneOf curchar ["X"; "B"; "#"]); cbn [negb andb];
    [eexists; reflexivity|].
  destruct (oneOf curchar ["O"; "W"; "@"]); cbn [negb andb];
    [eexists; reflexivity|].
  destruct (oneOf curchar ["."; ","; "C"; "S"]); cbn [orb].
  - destruct (getIntersectionType p xpos ypos); cbn [mbind result_bind];
      [eexists; reflexivity | reflexivity].
  - destruct (JS.rem2Is (JS.parseInt (JS.toStr curchar)) 1);
      cbn [negb andb]; [eexists; reflexivity|].
    destruct (JS.rem2Is (JS.parseInt (JS.toStr curchar)) 0
              || JS.numEq (JS.parseInt (JS.toStr curchar)) 0);
      cbn [negb andb]; [eexists; reflexivity|].
    destruct (isLetterToken curchar); cbn [andb]; [|eexists; reflexivity].
    destruct (getIntersectionType p xpos ypos); cbn [mbind result_bind];
      [eexists; reflexivity | reflexivity].
Qed.

Lemma cellStep_outcome fs p ypos xpos st :
  if cellThrows p ypos xpos then cellStep fs p ypos xpos st = TypeError
  else exists st', cellStep fs p ypos xpos st = Ok st'.
Proof.
  destruct st as [m mc]. unfold cellThrows, cellStep, tokenAt.
  destruct (rowAt (rows p) ypos) as [row|]; [|reflexivity].
  cbn [mbind result_bind].
  pose proof (drawCell_outcome fs p xpos ypos (elementXOf p xpos)
                (elementYOf p ypos) (tokenOf row xpos) mc) as H.
  destruct (probes (tokenOf row xpos)
            && match getIntersectionType p xpos ypos with
               | Ok _ => false
               | TypeError => true
               end).
  - now rewrite H.
  - destruct H as [[item mc'] ->]. cbn [mbind result_bind].
    eexists; reflexivity.
Qed.

(** The renderer throws exactly when a cell of the window does. *)
Lemma renderDiagram_outcome fs p :
  if List.existsb
       (fun ypos =>
          List.existsb (cellThrows p ypos) (range (startcol p) (endcol p)))
       (range (startrow p) (endrow p))
  then renderDiagram fs p = TypeError
  else exists svgElement, renderDiagram fs p = Ok svgElement.
Proof.
  unfold renderDiagram.
  set (imgSvg := <["svgDiagram" := EmptyString]> _).
  pose proof (forEach_outcome
                (fun ypos =>
                   forEach (cellStep fs p ypos)
                     (range (startcol p) (endcol p)))
                (fun ypos =>
                   List.existsb (cellThrows p ypos)
                     (range (startcol p) (endcol p)))
                (fun ypos st =>
                   forEach_outcome (cellStep fs p ypos) (cellThrows p ypos)
                     (cellStep_outcome fs p ypos)
                     (range (startcol p) (endcol p)) st)
                (range (startrow p) (endrow p)) (imgSvg, EmptyString)) as H.
  destruct (List.existsb _ (range (startrow p) (endrow p))).
  - now rewrite H.
  - destruct H as [[m mc] ->]. cbn [mbind result_bind].
    eexists; reflexivity.
Qed.

Lemma probes_undefined : probes None = false.
Proof. reflexivity. Qed.

Lemma last_rowAt (rws : list (list string)) row :
  last rws = Some row -> rowAt rws (Z.of_nat (length rws) - 1) = Some row.
Proof.
  rewrite last_lookup. intros H. pose proof (lookup_lt_Some _ _ _ H) as Hl.
  unfold rowAt. destruct (Z.ltb_spec (Z.of_nat (length rws) - 1) 0); [lia|].
  replace (Z.to_nat (Z.of_nat (length rws) - 1)) with (pred (length rws))
    by lia.
  exact H.
Qed.

(** On the grids the constructor builds a cell throws exactly when it is
    a cell of row 0 that probes its neighbours. *)
Lemma cellThrows_constructed input fs d p ypos xpos :
  newGoDiagram input fs = Ok d -> parsed d = Some p ->
  0 <= ypos <= endrow p ->
  cellThrows p ypos xpos
  = (ypos =? 0) && match rowAt (rows p) 0 with
                   | Some row0 => probes (tokenOf row0 xpos)
                   | None => false
                   end.
Proof.
  intros Hd Hp Hy.
  destruct (constructor_bottom_border input fs d p Hd Hp) as (Hl & _ & He).
  apply last_rowAt in Hl.
  unfold cellThrows.
  destruct (rowAt_in_range (rows p) ypos) as [row Hrow]; [lia|].
  rewrite Hrow.
  destruct (Z.eqb_spec ypos 0) as [->|Hne]; cbn [andb].
  - rewrite Hrow. rewrite getIntersectionType_row0. apply andb_true_r.
  - destruct (probes (tokenOf row xpos)) eqn:Hpr; [|reflexivity].
    cbn [andb].
    assert (Hlast : ypos <> Z.of_nat (length (rows p)) - 1).
    { intros ->. rewrite Hl in Hrow. injection Hrow as <-.
      rewrite tokenOf_nil, probes_undefined in Hpr. discriminate. }
    unfold getIntersectionType, tokenAt.
    destruct (rowAt_in_range (rows p) (ypos - 1)) as [up ->]; [lia|].
    destruct (rowAt_in_range (rows p) (ypos + 1)) as [down ->]; [lia|].
    rewrite Hrow. reflexivity.
Qed.

Lemma constructed_startrow input fs d p :
  newGoDiagram input fs = Ok d -> parsed d = Some p ->
  startrow p = topborder p /\ (topborder p = 0 \/ topborder p = 1).
Proof.
  intros Hd Hp.
  destruct (newGoDiagram_parsed input fs d p Hd Hp)
    as (m & p0 & diag & lm & _ & _ & _ & Hp0 & Hpp).
  destruct (initBoardAndDimensions_layout _ _ _ _ _ _ _ _ Hp0)
    as (row0 & rowS & rowE & _ & _ & _ & Ht & Hsr & _).
  assert (H : startrow p0 = topborder p0
              /\ (topborder p0 = 0 \/ topborder p0 = 1)).
  { split; [exact Hsr|]. rewrite Ht.
    destruct (isSentinel (tokenOf row0 1)); [right | left]; reflexivity. }
  subst p. destruct (degenerate fs p0); exact H.
Qed.

(** The renderer on the fields of a constructed instance: it throws
    exactly when there is no top border and a cell of row 0 inside the
    window probes its neighbours. *)
Lemma renderDiagram_constructed input fs d p :
  newGoDiagram input fs = Ok d -> parsed d = Some p ->
  startrow p <= endrow p ->
  (renderDiagram (fontSize d) p = TypeError <->
   topborder p = 0
   /\ exists xpos row0,
        startcol p <= xpos <= endcol p
        /\ rowAt (rows p) 0 = Some row0
        /\ probes (tokenOf row0 xpos) = true)
  /\ (renderDiagram (fontSize d) p <> TypeError ->
      exists svgElement, renderDiagram (fontSize d) p = Ok svgElement).
Proof.
  intros Hd Hp Hse.
  destruct (constructed_startrow input fs d p Hd Hp) as [Hsr Ht].
  pose proof (renderDiagram_outcome (fontSize d) p) as H.
  destruct (List.existsb _ (range (startrow p) (endrow p))) eqn:E.
  - split; [|intros Hne; contradiction].
    split; [intros _|intros _; exact H].
    apply List.existsb_exists in E as (ypos & Hy & E).
    apply List.existsb_exists in E as (xpos & Hx & E).
    apply In_range in Hy, Hx.
    rewrite (cellThrows_constructed input fs d p ypos xpos Hd Hp) in E
      by lia.
    apply andb_prop in E as [E0 E1]. apply Z.eqb_eq in E0. subst ypos.
    split; [lia|].
    destruct (rowAt (rows p) 0) as [row0|]; [|discriminate].
    exists xpos, row0. repeat split; try lia. exact E1.
  - destruct H as [s Hs]. split; [|intros _; now exists s].
    split; [rewrite Hs; discriminate|].
    intros (Ht0 & xpos & row0 & Hx & Hr & Hpr). exfalso.
    assert (Et : List.existsb
                   (fun ypos =>
                      List.existsb (cellThrows p ypos)
                        (range (startcol p) (endcol p)))
                   (range (startrow p) (endrow p)) = true).
    { apply List.existsb_exists. exists 0. split; [apply In_range; lia|].
      apply List.existsb_exists. exists xpos.
      split; [apply In_range; lia|].
      rewrite (cellThrows_constructed input fs d p 0 xpos Hd Hp) by lia.
      now rewrite Hr, Hpr. }
    congruence.
Qed.

(** For a valid instance the bounds are ordered, so the lemma above
    applies. *)
Lemma bounds_and_render input fs d p :
  newGoDiagram input fs = Ok d -> parsed d = Some p -> valid d ->
  startrow p <= endrow p
  /\ (renderDiagram (fontSize d) p = TypeError <->
      topborder p = 0
      /\ exists xpos row0,
           startcol p <= xpos <= endcol p
           /\ rowAt (rows p) 0 = Some row0
           /\ probes (tokenOf row0 xpos) = true)
  /\ (renderDiagram (fontSize d) p <> TypeError ->
      exists svgElement, renderDiagram (fontSize d) p = Ok svgElement).
Proof.
  intros Hd Hp Hv.
  assert (Hse : startrow p <= endrow p).
  { destruct (newGoDiagram_inv input fs d Hd)
      as [[_ Hn]|(m & p' & _ & Hp' & _ & Hdeg & _)]; [congruence|].
    assert (p' = p) by congruence; subst p'.
    unfold valid, diagramOf in Hv. rewrite Hp in Hv.
    destruct (degenerate fs p) eqn:E;
      [exfalso; apply Hv; now apply Hdeg|].
    unfold degenerate in E.
    repeat (apply orb_false_elim in E; destruct E as [E ?]).
    apply Z.ltb_ge in E. exact E. }
  split; [exact Hse|].
  exact (renderDiagram_constructed input fs d p Hd Hp Hse).
Qed.

(** X14: [createSVG] never throws on a valid diagram that has a top
    border: it returns a document with the width and the height of the
    image. *)
Theorem createSVG_returns_with_top_border input fs d p :
  newGoDiagram input fs = Ok d -> parsed d = Some p -> valid d ->
  topborder p = 1 ->
  exists svgElement,
    fst (createSVG d)
    = Ok {| xml := svgElement;
            width := Some (imageWidth p);
            height := Some (imageHeight p) |}.
Proof.
  intros Hd Hp Hv Ht.
  destruct (bounds_and_render input fs d p Hd Hp Hv) as (Hse & Hthrow & Hok).
  unfold createSVG. unfold valid in Hv.
  destruct (diagramOf d) as [body|] eqn:Hdiag; [|contradiction]. rewrite Hp.
  cbn [fst].
  destruct Hok as [s Hs].
  - intros Hth. apply Hthrow in Hth as [Ht0 _]. lia.
  - rewrite Hs. cbn [mbind result_bind]. now exists s.
Qed.

Lemma createSVG_returns_with_top_border_witness :
  valid (instanceOf enclosedBoardLinked defaultFontSize)
  /\ exists p,
       parsed (instanceOf enclosedBoardLinked defaultFontSize) = Some p
       /\ topborder p = 1
       /\ exists svgElement,
            fst (createSVG (instanceOf enclosedBoardLinked defaultFontSize))
            = Ok {| xml := svgElement;
                    width := Some (imageWidth p);
                    height := Some (imageHeight p) |}.
Proof.
  assert (Hd : newGoDiagram enclosedBoardLinked defaultFontSize
               = Ok (instanceOf enclosedBoardLinked defaultFontSize))
    by reflexivity.
  assert (Hv : valid (instanceOf enclosedBoardLinked defaultFontSize))
    by (vm_compute; discriminate).
  split; [exact Hv|]. eexists. split; [reflexivity|].
  split; [reflexivity|].
  exact (createSVG_returns_with_top_border _ _ _ _ Hd eq_refl Hv eq_refl).
Defined.

(** X15: on a valid diagram [createSVG] throws exactly when the diagram
    has no top border and some cell of row 0 inside the window is an
    empty intersection or a letter (a cell that probes its neighbours);
    in every other case it returns. *)
Theorem createSVG_throws_exactly_at_open_top input fs d p :
  newGoDiagram input fs = Ok d -> parsed d = Some p -> valid d ->
  (fst (createSVG d) = TypeError <->
   topborder p = 0
   /\ exists xpos row0,
        startcol p <= xpos <= endcol p
        /\ rowAt (rows p) 0 = Some row0
        /\ probes (tokenOf row0 xpos) = true)
  /\ (fst (createSVG d) <> TypeError ->
      exists r, fst (createSVG d) = Ok r).
Proof.
  intros Hd Hp Hv.
  destruct (bounds_and_render input fs d p Hd Hp Hv) as (Hse & Hthrow & Hok).
  unfold createSVG. unfold valid in Hv.
  destruct (diagramOf d) as [body|] eqn:Hdiag; [|contradiction]. rewrite Hp.
  cbn [fst].
  destruct (renderDiagram (fontSize d) p) as [s|] eqn:Hs;
    cbn [mbind result_bind].
  - split; [|intros _; eexists; reflexivity].
    split; [discriminate|]. intros H. apply Hthrow in H. discriminate.
  - split; [|intros H; contradiction].
    split; [intros _; now apply Hthrow | reflexivity].
Qed.

Lemma createSVG_throws_exactly_at_open_top_witness :
  valid (instanceOf openFragment defaultFontSize)
  /\ exists p,
       parsed (instanceOf openFragment defaultFontSize) = Some p
       /\ fst (createSVG (instanceOf openFragment defaultFontSize))
          = TypeError
       /\ topborder p = 0
       /\ exists xpos row0,
            startcol p <= xpos <= endcol p
            /\ rowAt (rows p) 0 = Some row0
            /\ probes (tokenOf row0 xpos) = true.
Proof.
  assert (Hd : newGoDiagram openFragment defaultFontSize
               = Ok (instanceOf openFragment defaultFontSize))
    by reflexivity.
  assert (Hv : valid (instanceOf openFragment defaultFontSize))
    by (vm_compute; discriminate).
  assert (Ht : fst (createSVG (instanceOf openFragment defaultFontSize))
               = TypeError)
    by (vm_compute; reflexivity).
  split; [exact Hv|]. eexists. split; [reflexivity|].
  split; [exact Ht|].
  exact (proj1 (proj1 (createSVG_throws_exactly_at_open_top _ _ _ _ Hd
                         eq_refl Hv)) Ht).
Defined.

(** ** The cells *)

(** The one-character tokens that probe their neighbours are the empty
    intersections and the lowercase letters. *)
Lemma probes_single_character c :
  probes (Some (String c EmptyString))
  = JS.contains c ".,CS" || JS.isLower c.
Proof. destruct c as [[] [] [] [] [] [] [] []]; vm_compute; reflexivity. Qed.

(** X16: a cell of one character that is no stone, no empty
    intersection or mark, no digit and no lowercase letter draws
    nothing, and neither does a cell beyond the end of its row: the
    sentinel, the underscore and the marks Y Q Z P T M are among them. *)
Theorem other_characters_draw_nothing
    fs p xpos ypos elementX elementY markupColor :
  (forall c, isDrawn c = false ->
     drawCell fs p xpos ypos elementX elementY (Some (String c EmptyString))
       markupColor
     = Ok (EmptyString, markupColor))
  /\ drawCell fs p xpos ypos elementX elementY None markupColor
     = Ok (EmptyString, markupColor).
Proof.
  split; [|reflexivity].
  intros c H.
  destruct c as [[] [] [] [] [] [] [] []];
    vm_compute in H; try discriminate H; reflexivity.
Qed.

Lemma other_characters_draw_nothing_witness :
  isDrawn "%" = false /\ isDrawn "_" = false /\ isDrawn "Y" = false
  /\ forall fs p xpos ypos elementX elementY markupColor,
       drawCell fs p xpos ypos elementX elementY (Some "%") markupColor
       = Ok (EmptyString, markupColor).
Proof.
  do 3 (split; [reflexivity|]).
  intros fs p xpos ypos elementX elementY markupColor.
  exact (proj1 (other_characters_draw_nothing fs p xpos ypos elementX
                  elementY markupColor) "%"%char eq_refl).
Defined.

(** *** Numbered moves *)

Lemma isDigit_isRadixDigit c :
  JS.isDigit c = true -> JS.isRadixDigit 10 c = true.
Proof.
  intros H. destruct c as [[] [] [] [] [] [] [] []];
    vm_compute in H; try discriminate H; reflexivity.
Qed.

Lemma isDigit_digitValue c :
  JS.isDigit c = true -> exists v, JS.digitValue c = Some v /\ 0 <= v < 10.
Proof.
  intros H. destruct c as [[] [] [] [] [] [] [] []];
    vm_compute in H; try discriminate H;
    (eexists; split; [cbv; reflexivity | lia]).
Qed.

Lemma takeWhile_digits ds :
  forallb JS.isDigit (charsOf ds) = true ->
  JS.takeWhile (JS.isRadixDigit 10) ds = ds.
Proof.
  induction ds as [|c ds IH]; [reflexivity|].
  cbn [charsOf list_ascii_of_string forallb]. intros H.
  apply andb_prop in H as [Hc Hr]. cbn [JS.takeWhile].
  rewrite (isDigit_isRadixDigit c Hc). f_equal. now apply IH.
Qed.

Lemma digitsValue_nonneg ds acc :
  forallb JS.isDigit (charsOf ds) = true -> 0 <= acc ->
  0 <= JS.digitsValue 10 acc ds.
Proof.
  revert acc. induction ds as [|c ds IH]; intros acc H Ha; [exact Ha|].
  cbn [charsOf list_ascii_of_string forallb] in H.
  apply andb_prop in H as [Hc Hr]. cbn [JS.digitsValue].
  destruct (isDigit_digitValue c Hc) as (v & -> & Hv).
  apply IH; [exact Hr|]. cbn. lia.
Qed.

(** [parseInt] on a run of decimal digits reads its value: no white
    space to skip, no sign and no hexadecimal prefix. *)
Lemma parseInt_numeral ds :
  isNumeral ds = true ->
  JS.parseInt ds = JS.roundDouble (decimalValue ds).
Proof.
  unfold isNumeral. intros H. apply andb_prop in H as [Hne Hd].
  destruct ds as [|c ds]; [discriminate|]. clear Hne.
  pose proof (takeWhile_digits _ Hd) as Ht.
  cbn [charsOf list_ascii_of_string forallb] in Hd.
  apply andb_prop in Hd as [Hc Hr].
  unfold JS.parseInt, decimalValue.
  assert (Hs : JS.trimStart (String c ds) = String c ds).
  { unfold JS.trimStart. cbn [JS.dropWhile].
    destruct c as [[] [] [] [] [] [] [] []];
      vm_compute in Hc; try discriminate Hc; reflexivity. }
  rewrite Hs.
  assert (Hplain :
            (let '(neg, s2) :=
               match String c ds with
               | String "-" r => (true, r)
               | String "+" r => (false, r)
               | _ => (false, String c ds)
               end in
             let '(radix, s3) :=
               match s2 with
               | String "0" (String "x" r) => (16, r)
               | String "0" (String "X" r) => (16, r)
               | _ => (10, s2)
               end in
             (neg, radix, s3)) = (false, 10, String c ds)).
  { destruct c as [[] [] [] [] [] [] [] []];
      vm_compute in Hc; try discriminate Hc; try reflexivity.
    destruct ds as [|c2 ds]; [reflexivity|].
    cbn [charsOf list_ascii_of_string forallb] in Hr.
    apply andb_prop in Hr as [Hc2 _].
    destruct c2 as [[] [] [] [] [] [] [] []];
      vm_compute in Hc2; try discriminate Hc2; reflexivity. }
  revert Hplain.
  destruct (match String c ds with
            | String "-" r => (true, r)
            | String "+" r => (false, r)
            | _ => (false, String c ds)
            end) as [neg s2].
  destruct (match s2 with
            | String "0" (String "x" r) => (16, r)
            | String "0" (String "X" r) => (16, r)
            | _ => (10, s2)
            end) as [radix s3].
  intros [= -> -> ->]. rewrite Ht. reflexivity.
Qed.

Lemma rem2_odd v : 0 <= v -> (Z.rem v 2 =? 1) = Z.odd v.
Proof.
  intros H. rewrite Z.rem_mod_nonneg by lia. rewrite Zmod_odd.
  now destruct (Z.odd v).
Qed.

Lemma rem2_even v : 0 <= v -> (Z.rem v 2 =? 0) = negb (Z.odd v).
Proof.
  intros H. rewrite Z.rem_mod_nonneg by lia. rewrite Zmod_odd.
  now destruct (Z.odd v).
Qed.

Lemma numeral_not_oneOf ds l :
  isNumeral ds = true ->
  Forall (fun s => match s with
                   | String c _ => JS.isDigit c = false
                   | EmptyString => True
                   end) l ->
  oneOf (Some ds) l = false.
Proof.
  unfold isNumeral. intros H. apply andb_prop in H as [Hne Hd].
  destruct ds as [|c ds]; [discriminate|].
  cbn [charsOf list_ascii_of_string forallb] in Hd.
  apply andb_prop in Hd as [Hc _].
  induction 1 as [|s l Hs _ IH]; [reflexivity|].
  cbn [oneOf List.existsb] in *. rewrite IH, orb_false_r.
  destruct s as [|c' s]; [reflexivity|]. cbn [String.eqb].
  destruct (Ascii.eqb_spec c c') as [<-|]; [congruence | reflexivity].
Qed.

(** The branch of the [switch] that a numeral reaches. *)
Lemma drawCell_numeral fs p xpos ypos elementX elementY markupColor ds :
  isNumeral ds = true -> decimalValue ds < 2 ^ 53 ->
  JS.parseInt ds = JS.Int (decimalValue ds)
  /\ drawCell fs p xpos ypos elementX elementY (Some ds) markupColor
     = if Z.odd (decimalValue ds)
       then Ok (drawStone p elementX elementY black (oddcolor p)
                +:+ cellText fs elementX elementY (evencolor p) ds,
                evencolor p)
       else Ok (drawStone p elementX elementY black (evencolor p)
                +:+ cellText fs elementX elementY (oddcolor p)
                      (if String.eqb ds "0" then "10" else ds),
                oddcolor p).
Proof.
  intros Hn Hv.
  assert (Hpos : 0 <= decimalValue ds).
  { unfold isNumeral in Hn. apply andb_prop in Hn as [_ Hd].
    now apply digitsValue_nonneg. }
  assert (Hp : JS.parseInt ds = JS.Int (decimalValue ds)).
  { rewrite (parseInt_numeral ds Hn). unfold JS.roundDouble.
    rewrite Z.abs_eq by exact Hpos.
    destruct (Z.ltb_spec (decimalValue ds) (2 ^ 53)); [reflexivity | lia]. }
  split; [exact Hp|].
  unfold drawCell.
  rewrite !(numeral_not_oneOf ds _ Hn) by (repeat constructor).
  change (JS.toStr (Some ds)) with ds. rewrite Hp.
  cbn [JS.rem2Is JS.numEq]. rewrite rem2_odd, rem2_even by exact Hpos.
  destruct (Z.odd (decimalValue ds)); reflexivity.
Qed.

(** X17: a cell whose token is a run of decimal digits with a value
    below 2^53 is a numbered move.  It gets a circle with a black ring
    and, over it, its digits as text.  The circle of an odd number is
    filled with the color that moves first (black unless the header has
    [W]) and its text has the other color; for an even number the two
    colors are exchanged.  The text is the token, except for the token
    [0], which is labelled [10]; it is moved left by the width of the
    font box for a label of value 10 or more and by half of it
    otherwise. *)
Theorem numbered_move_cell fs p xpos ypos elementX elementY markupColor ds :
  isNumeral ds = true -> decimalValue ds < 2 ^ 53 ->
  let dark := xorb (Z.odd (decimalValue ds)) (String.eqb (firstColor p) "W") in
  let stoneColor := if dark then "rgb(0, 0, 0)" else "rgb(255, 255, 255)" in
  let textColor := if dark then "rgb(255, 255, 255)" else "rgb(0, 0, 0)" in
  let label := if String.eqb ds "0" then "10" else ds in
  let xOffset :=
    if String.eqb ds "0" || (10 <=? decimalValue ds)
    then JS.int (w fs) else JS.int (w fs) / 2 in
  drawCell fs p xpos ypos elementX elementY (Some ds) markupColor
  = Ok (JS.qq "<circle cx='" +:+ JS.showQuarters elementX
        +:+ JS.qq "' cy = '" +:+ JS.showQuarters elementY
        +:+ JS.qq "' r = '" +:+ JS.showQuarters (radius p)
        +:+ JS.qq "' stroke = 'rgb(0, 0, 0)' fill = '" +:+ stoneColor
        +:+ JS.qq "' />" +:+ JS.nl +:+ "  "
        +:+ JS.qq "<text x='" +:+ JS.showQuarters (elementX - xOffset)
        +:+ JS.qq "' y='"
        +:+ JS.showQuarters (elementY - (JS.int (h fs) / 2 - 50))
        +:+ JS.qq "' fill='" +:+ textColor
        +:+ JS.qq "' class='markup' style='font-size:"
        +:+ pretty (9 * h fs / 10) +:+ JS.qq "px'>" +:+ label
        +:+ "</text>" +:+ JS.nl,
        textColor).
Proof.
  intros Hn Hv. cbv zeta.
  destruct (drawCell_numeral fs p xpos ypos elementX elementY markupColor
              ds Hn Hv) as [Hp ->].
  unfold drawStone, cellText, evencolor, oddcolor, svgMarkupTextSize.
  destruct (String.eqb_spec ds "0") as [->|Hz].
  - change (JS.numGe (JS.parseInt "10") 10) with true.
    change (Z.odd (decimalValue "0")) with false.
    cbn [orb xorb]. cbv iota.
    destruct (String.eqb (firstColor p) "W"); markup_eq.
  - rewrite Hp. cbn [JS.numGe orb].
    destruct (Z.odd (decimalValue ds));
      destruct (String.eqb (firstColor p) "W");
      destruct (10 <=? decimalValue ds); cbn [xorb negb]; markup_eq.
Qed.

Lemma numbered_move_cell_witness :
  isNumeral "12" = true /\ decimalValue "12" < 2 ^ 53
  /\ exists p,
       parsedOf numberedBoard defaultFontSize = Some p
       /\ firstColor p = "W"
       /\ drawCell defaultFontSize p 1 1 (elementXOf p 1) (elementYOf p 1)
            (Some "12") EmptyString
          = Ok (JS.qq "<circle cx='10.5' cy = '10.5' r = '8.5' stroke = 'rgb(0, 0, 0)' fill = 'rgb(0, 0, 0)' />"
                +:+ JS.nl +:+ "  "
                +:+ JS.qq "<text x='2.5' y='15' fill='rgb(255, 255, 255)' class='markup' style='font-size:14px'>12</text>"
                +:+ JS.nl,
                "rgb(255, 255, 255)").
Proof.
  split; [reflexivity|]. split; [reflexivity|].
  destruct (parsedOf numberedBoard defaultFontSize) as [p|] eqn:E;
    [|vm_compute in E; discriminate].
  exists p. split; [reflexivity|].
  assert (Hc : firstColor p = "W")
    by (vm_compute in E; injection E as <-; reflexivity).
  split; [exact Hc|].
  rewrite (numbered_move_cell defaultFontSize p 1 1 _ _ EmptyString "12"
             eq_refl eq_refl).
  vm_compute in E. injection E as <-. vm_compute. reflexivity.
Defined.

(** ** The header *)

Lemma stripPrefix_W s :
  JS.stripPrefix "$$W" s
  = match JS.stripPrefix "$$" s with
    | Some (String c r) => if Ascii.eqb c "W" then Some r else None
    | _ => None
    end.
Proof.
  destruct s as [|c1 [|c2 [|c3 s]]]; cbn [JS.stripPrefix];
    try reflexivity.
  - now destruct (Ascii.eqb "$" c1).
  - destruct (Ascii.eqb "$" c1); [|reflexivity].
    now destruct (Ascii.eqb "$" c2).
  - destruct (Ascii.eqb "$" c1); [|reflexivity].
    destruct (Ascii.eqb "$" c2); [|reflexivity].
    rewrite (Ascii.eqb_sym c3 "W"). now destruct (Ascii.eqb "W" c3).
Qed.

(** X18: White moves first exactly when the trimmed first line starts
    with [$$W]; for every other matched header, a header with the letter
    B or with no letter, Black moves first. *)
Theorem first_color_of_header input fs d p :
  newGoDiagram input fs = Ok d -> parsed d = Some p ->
  firstColor p
  = match JS.stripPrefix "$$W" (headerLine input) with
    | Some _ => "W"
    | None => "B"
    end.
Proof.
  intros Hd Hp.
  destruct (newGoDiagram_parsed input fs d p Hd Hp)
    as (m & p0 & diag & lm & Hm & _ & _ & Hp0 & Hpp).
  destruct (initBoardAndDimensions_fields _ _ _ _ _ _ _ _ Hp0)
    as (Hc & _).
  assert (Hf : firstColor p
               = if bool_decide (group1 m = Some "W") then "W" else "B")
    by (subst p; destruct (degenerate fs p0); exact Hc).
  rewrite Hf, stripPrefix_W. clear Hf. revert Hm. unfold matchHeader.
  destruct (JS.stripPrefix "$$" (headerLine input)) as [r|]; [|discriminate].
  destruct r as [|c r]; [intros [= <-]; reflexivity|].
  destruct (Ascii.eqb_spec c "W") as [->|Hw].
  - cbn [Ascii.eqb Bool.eqb orb].
    destruct r as [|c' r]; [intros [= <-]; reflexivity|].
    destruct (Ascii.eqb c' "c"); intros [= <-]; reflexivity.
  - destruct (Ascii.eqb_spec c "B") as [->|Hb]; cbn [orb].
    + destruct r as [|c' r]; [intros [= <-]; reflexivity|].
      destruct (Ascii.eqb c' "c"); intros [= <-]; reflexivity.
    + destruct (Ascii.eqb c "c"); intros [= <-]; cbn [group1];
        rewrite bool_decide_eq_false_2 by discriminate; reflexivity.
Qed.

Lemma first_color_of_header_witness :
  exists p,
    parsed (instanceOf numberedBoard defaultFontSize) = Some p
    /\ firstColor p = "W"
    /\ firstColor p
       = match JS.stripPrefix "$$W" (headerLine numberedBoard) with
         | Some _ => "W"
         | None => "B"
         end.
Proof.
  assert (Hd : newGoDiagram numberedBoard defaultFontSize
               = Ok (instanceOf numberedBoard defaultFontSize))
    by reflexivity.
  eexists. split; [reflexivity|]. split; [reflexivity|].
  exact (first_color_of_header _ _ _ _ Hd eq_refl).
Defined.

(** ** The host *)


(** X20: for a source whose parse fails (the header does not match, or
    the validity test refuses the bounds) the host builds a block of 320
    by 320 that holds the error placeholder. *)
Theorem draw_chessboard_failed_parse source :
  headerFails source \/ degenerateBounds source defaultFontSize ->
  draw_chessboard source
  = Ok {| viewBox := "0 0 320 320";
          blockWidth := "320";
          blockHeight := "320";
          innerHTML := "[object SVGGElement]";
          display := "block" |}.
Proof.
  intros H. unfold draw_chessboard.
  destruct (newGoDiagram_returns source defaultFontSize) as [d Hd].
  rewrite Hd. cbn [mbind result_bind].
  assert (Hnull : diagramOf d = None).
  { unfold diagramOf.
    destruct (newGoDiagram_inv source defaultFontSize d Hd)
      as [[_ ->]|(m & p & Hm & Hp & _ & Hdeg & _)]; [reflexivity|].
    rewrite Hp. destruct H as [H|(d' & p' & Hd' & Hp' & Hdeg')].
    - unfold headerFails in H. congruence.
    - rewrite Hd in Hd'. injection Hd' as <-.
      rewrite Hp in Hp'. injection Hp' as <-. now apply Hdeg. }
  destruct (createSVG_invalid d Hnull) as [-> _].
  reflexivity.
Qed.

Lemma draw_chessboard_failed_parse_witness :
  (headerFails "no header" \/ degenerateBounds "no header" defaultFontSize)
  /\ draw_chessboard "no header"
     = Ok {| viewBox := "0 0 320 320";
             blockWidth := "320";
             blockHeight := "320";
             innerHTML := "[object SVGGElement]";
             display := "block" |}.
Proof.
  assert (H : headerFails "no header"
              \/ degenerateBounds "no header" defaultFontSize)
    by (left; reflexivity).
  split; [exact H|]. exact (draw_chessboard_failed_parse _ H).
Defined.

(** X21: for a source whose diagram is valid the host throws where
    [createSVG] throws, and otherwise builds a block whose [viewBox] is
    the image, whose width and height are the image's rounded up to
    tens, and whose content is the document. *)
Theorem draw_chessboard_valid source d p :
  newGoDiagram source defaultFontSize = Ok d -> parsed d = Some p ->
  valid d ->
  match fst (createSVG d) with
  | TypeError => draw_chessboard source = TypeError
  | Ok r =>
      draw_chessboard source
      = Ok {| viewBox := "0 0 " +:+ pretty (imageWidth p) +:+ " "
                         +:+ pretty (imageHeight p);
              blockWidth := pretty (roundNumberToTens (imageWidth p));
              blockHeight := pretty (roundNumberToTens (imageHeight p));
              innerHTML := xml r;
              display := "block" |}
  end.
Proof.
  intros Hd Hp Hv. unfold draw_chessboard. rewrite Hd.
  cbn [mbind result_bind]. unfold createSVG. unfold valid in Hv.
  destruct (diagramOf d) as [body|]; [|contradiction]. rewrite Hp.
  cbn [fst].
  destruct (renderDiagram (fontSize d) p) as [s|]; reflexivity.
Qed.

Lemma draw_chessboard_valid_witness :
  valid (instanceOf enclosedBoard defaultFontSize)
  /\ exists b,
       draw_chessboard enclosedBoard = Ok b
       /\ viewBox b = "0 0 21 55"
       /\ blockWidth b = "30" /\ blockHeight b = "60".
Proof.
  assert (Hd : newGoDiagram enclosedBoard defaultFontSize
               = Ok (instanceOf enclosedBoard defaultFontSize))
    by reflexivity.
  assert (Hv : valid (instanceOf enclosedBoard defaultFontSize))
    by (vm_compute; discriminate).
  split; [exact Hv|].
  pose proof (draw_chessboard_valid enclosedBoard _ _ Hd eq_refl Hv) as H.
  destruct (fst (createSVG (instanceOf enclosedBoard defaultFontSize)))
    as [r|] eqn:E; [|vm_compute in E; discriminate].
  eexists. split; [exact H|]. repeat split; vm_compute; reflexivity.
Defined.

(** ** The coordinate labels *)

Lemma numAdd_numAdd c a b : JS.numAdd (JS.numAdd c a) b = JS.numAdd c (a + b).
Proof. destruct c; cbn; [reflexivity..|f_equal; lia]. Qed.

Lemma range_nil lo hi : hi < lo -> range lo hi = [].
Proof.
  intros H. unfold range. now replace (Z.to_nat (hi - lo + 1)) with 0%nat by lia.
Qed.

(** A loop that appends one label per index and moves its two counters
    by a fixed step emits the labels of the indices in order. *)
Lemma fold_labels (step : Z * JS.number * string -> Z -> Z * JS.number * string)
    (ys : Z -> Z) (cs : Z -> JS.number) (label : Z -> string) :
  (forall k acc i,
     step (ys k, cs k, acc) i = (ys (k + 1), cs (k + 1), acc +:+ label k)) ->
  forall n hi k acc, Z.to_nat (hi - k + 1) = n ->
    exists a b,
      fold_left step (range k hi) (ys k, cs k, acc)
      = (a, b, acc +:+ concatS (List.map label (range k hi))).
Proof.
  intros Hstep n. induction n as [|n IH]; intros hi k acc Hn.
  - rewrite range_nil by lia. cbn. rewrite append_nil_r. eauto.
  - rewrite range_cons by lia. cbn [fold_left List.map concatS fold_right].
    rewrite Hstep.
    destruct (IH hi (k + 1) (acc +:+ label k) ltac:(lia)) as (a & b & E).
    rewrite E, append_assoc. eauto.
Qed.

(** X22: with the left border seen and the bottom border not, the case
    of every grid the constructor builds, [drawCoordinates] emits first
    one row label for every row of the window but the last, counting
    down from the board size under a top border and from 0 without one,
    0.5 further apart than the rows, and then one column label for every
    column of the window, with the letters from A on. *)
Theorem drawCoordinates_closed_form fs p color cls size :
  bottomborder p = 0 -> leftborder p <> 0 ->
  drawCoordinates fs p color cls size
  = concatS (List.map
               (rowLabel fs p color cls size
                  (if topborder p =? 0 then JS.Int 0 else boardSize p))
               (range 0 (endrow p - startrow p - 1)))
    +:+ concatS (List.map (columnLabel fs p color cls size (JS.Int 0))
                   (range 0 (endcol p - startcol p))).
Proof.
  intros Hb Hl. unfold drawCoordinates. rewrite Hb.
  replace (leftborder p =? 0) with false by (symmetry; apply Z.eqb_neq, Hl).
  cbn [Z.eqb negb]. cbv zeta.
  set (first := if negb (topborder p =? 0) then boardSize p else JS.Int 0).
  assert (Hfirst : (if topborder p =? 0 then JS.Int 0 else boardSize p)
                   = first)
    by (unfold first; now destruct (topborder p =? 0)).
  rewrite Hfirst. clear Hfirst.
  match goal with
  | |- context [fold_left ?f (range 0 (endrow p - startrow p - 1)) ?i] =>
      destruct (fold_labels f
                  (fun k => k * (radius p * 2 + 2)
                            + (JS.int (12 + h fs + 2) + radius p
                               - JS.int (h fs) / 2))
                  (fun k => JS.numAdd first (- k))
                  (rowLabel fs p color cls size first))
        with (n := Z.to_nat (endrow p - startrow p - 1 - 0 + 1))
             (hi := endrow p - startrow p - 1) (k := 0) (acc := EmptyString)
        as (a1 & b1 & E1)
  end.
  { intros k acc i. cbn beta iota. unfold rowLabel. cbv zeta.
    rewrite numAdd_numAdd.
    replace (- (k + 1)) with (- k + -1) by lia.
    replace ((k + 1) * (radius p * 2 + 2)
             + (JS.int (12 + h fs + 2) + radius p - JS.int (h fs) / 2))
      with (k * (radius p * 2 + 2)
            + (JS.int (12 + h fs + 2) + radius p - JS.int (h fs) / 2)
            + (radius p * 2 + 2)) by lia.
    reflexivity. }
  { reflexivity. }
  match goal with
  | |- context [fold_left ?f (range 0 (endcol p - startcol p)) ?i] =>
      destruct (fold_labels f
                  (fun k => k * (radius p * 2)
                            + (JS.int (2 + w fs * 2 + 4) + radius p
                               - JS.int (w fs) / 2))
                  (fun k => JS.numAdd (JS.Int 0) k)
                  (columnLabel fs p color cls size (JS.Int 0)))
        with (n := Z.to_nat (endcol p - startcol p - 0 + 1))
             (hi := endcol p - startcol p) (k := 0) (acc := EmptyString)
        as (a2 & b2 & E2)
  end.
  { intros k acc i. cbn beta iota. unfold columnLabel. cbv zeta.
    cbn [JS.numAdd].
    replace (0 + (k + 1)) with (0 + k + 1) by lia.
    replace ((k + 1) * (radius p * 2)
             + (JS.int (2 + w fs * 2 + 4) + radius p - JS.int (w fs) / 2))
      with (k * (radius p * 2)
            + (JS.int (2 + w fs * 2 + 4) + radius p - JS.int (w fs) / 2)
            + radius p * 2) by lia.
    reflexivity. }
  { reflexivity. }
  cbn beta in E1, E2.
  replace (JS.numAdd first (- 0)) with first in E1
    by (destruct first; cbn; [reflexivity..|f_equal; lia]).
  rewrite Z.mul_0_l, Z.add_0_l in E1, E2. cbn [JS.numAdd] in E2.
  change (0 + 0) with 0 in E2.
  rewrite E1, E2. rewrite !append_nil_l. reflexivity.
Qed.

Lemma drawCoordinates_closed_form_witness :
  exists p,
    parsedOf enclosedBoard defaultFontSize = Some p
    /\ (bottomborder p = 0 /\ leftborder p <> 0)
    /\ drawCoordinates defaultFontSize p "black" "coord" "size"
       = concatS (List.map
                    (rowLabel defaultFontSize p "black" "coord" "size"
                       (if topborder p =? 0 then JS.Int 0 else boardSize p))
                    (range 0 (endrow p - startrow p - 1)))
         +:+ concatS (List.map
                        (columnLabel defaultFontSize p "black" "coord" "size"
                           (JS.Int 0))
                        (range 0 (endcol p - startcol p))).
Proof.
  destruct (parsedOf enclosedBoard defaultFontSize) as [p|] eqn:E;
    [|vm_compute in E; discriminate].
  exists p. split; [reflexivity|].
  assert (Hb : bottomborder p = 0)
    by (vm_compute in E; injection E as <-; reflexivity).
  assert (Hl : leftborder p <> 0)
    by (vm_compute in E; injection E as <-; discriminate).
  split; [split; assumption|].
  exact (drawCoordinates_closed_form defaultFontSize p _ _ _ Hb Hl).
Defined.

(** ** The characters of the grid *)

Lemma Forall_chars_map s :
  Forall (fun c => JS.contains c "-|+" = false)
    (charsOf (JS.map (fun c => if JS.contains c "-|+" then "%"%char else c) s)).
Proof.
  induction s as [|c s IH]; [constructor|].
  cbn [JS.map charsOf list_ascii_of_string]. constructor; [|exact IH].
  destruct (JS.contains c "-|+") eqn:E; [reflexivity|exact E].
Qed.

Lemma Forall_chars_filter (Q : ascii -> Prop) g s :
  Forall Q (charsOf s) ->
  Forall (fun c => Q c /\ g c = true) (charsOf (JS.filter g s)).
Proof.
  induction s as [|c s IH]; [constructor|].
  cbn [JS.filter charsOf list_ascii_of_string]. intros H.
  inversion H as [|? ? Hc Hs]; subst.
  destruct (g c) eqn:E; [constructor; [split; assumption|]|]; now apply IH.
Qed.

Lemma Forall_chars_collapse (Q : ascii -> Prop) b s :
  Forall Q (charsOf s) ->
  Forall (fun c => Q c \/ c = " "%char \/ c = JS.lf)
    (charsOf (collapseNewlines b s)).
Proof.
  revert b. induction s as [|c s IH]; intros b H; [constructor|].
  inversion H as [|? ? Hc Hs]; subst.
  cbn [collapseNewlines]. destruct (Ascii.eqb c JS.lf).
  - destruct b; [now apply IH|].
    cbn [charsOf list_ascii_of_string].
    constructor; [right; left; reflexivity|].
    constructor; [right; right; reflexivity|]. now apply IH.
  - cbn [charsOf list_ascii_of_string].
    constructor; [left; exact Hc|now apply IH].
Qed.

Lemma Forall_chars_split (Q : ascii -> Prop) sep s x :
  Forall Q (charsOf s) -> In x (JS.split sep s) ->
  Forall (fun c => Q c /\ c <> sep) (charsOf x).
Proof.
  revert x. induction s as [|c s IH]; intros x H Hx.
  - destruct Hx as [<-|[]]. constructor.
  - inversion H as [|? ? Hc Hs]; subst. cbn [JS.split] in Hx.
    destruct (Ascii.eqb_spec c sep) as [->|Hne].
    + destruct Hx as [<-|Hx]; [constructor|now apply IH].
    + destruct (JS.split sep s) as [|w ws] eqn:E.
      * destruct Hx as [<-|[]].
        cbn [charsOf list_ascii_of_string].
        constructor; [split; assumption|constructor].
      * destruct Hx as [<-|Hx].
        -- cbn [charsOf list_ascii_of_string].
           constructor; [split; assumption|].
           apply IH; [assumption|now left].
        -- apply IH; [assumption|now right].
Qed.

Lemma In_chars_filter g t x :
  In x (JS.chars (JS.filter g t)) ->
  exists c, x = String c EmptyString /\ In c (charsOf t) /\ g c = true.
Proof.
  induction t as [|c t IH]; [intros []|].
  cbn [JS.filter]. destruct (g c) eqn:E.
  - cbn [JS.chars]. intros [<-|H].
    + exists c. repeat split; [now left|exact E].
    + destruct (IH H) as (c' & -> & Hin & Hg).
      exists c'. repeat split; [now right|exact Hg].
  - intros H. destruct (IH H) as (c' & -> & Hin & Hg).
    exists c'. repeat split; [now right|exact Hg].
Qed.

(** The tokens of a normalized grid are free of structural characters. *)
Lemma normalizeRows_tokens diag row tok c :
  In row (normalizeRows diag) -> In tok row -> In c (charsOf tok) ->
  isStructural c = false.
Proof.
  unfold normalizeRows. rewrite in_map_iff. intros (t & <- & Ht) Htok Hc.
  pose proof (Forall_chars_map diag) as H1.
  apply (Forall_chars_filter _
           (fun c => negb (Ascii.eqb c "009" || Ascii.eqb c "013"
                           || Ascii.eqb c "$"))) in H1.
  apply (Forall_chars_collapse _ false) in H1.
  pose proof (Forall_chars_split _ _ _ _ H1 Ht) as H2. clear H1 Ht.
  assert (Hgood : forall a,
             In a (charsOf t) -> a <> " "%char -> isStructural a = false).
  { intros a Ha Hsp. rewrite List.Forall_forall in H2.
    destruct (H2 a Ha) as [[[Hb Hg]|[->| ->]] Hlf]; try contradiction.
    unfold isStructural. rewrite Hb.
    apply negb_true_iff in Hg. cbn [orb]. rewrite Hg. cbn [orb].
    apply orb_false_intro; apply Ascii.eqb_neq; assumption. }
  unfold splitRow in Htok.
  destruct (JS.contains " " t && JS.existsb JS.isDigit t
            && negb (JS.contains "{" t)).
  - assert (Hall : Forall (fun a => In a (charsOf t)) (charsOf t))
      by (apply List.Forall_forall; auto).
    pose proof (Forall_chars_split _ " " t tok Hall Htok) as H3.
    rewrite List.Forall_forall in H3.
    destruct (H3 c Hc) as [Hin Hsp]. now apply Hgood.
  - destruct (In_chars_filter _ _ _ Htok) as (a & -> & Hin & Hg).
    destruct Hc as [<-|[]]. apply Hgood; [exact Hin|].
    apply negb_true_iff, Ascii.eqb_neq in Hg. exact Hg.
Qed.

(** X23: no token of the grid the constructor builds holds a border
    character, a tab, a carriage return, a dollar sign, a line feed or a
    blank: the border characters have become the sentinel, and the
    others are deleted or split on. *)
Theorem grid_tokens_hold_no_structural_character input fs d p row tok c :
  newGoDiagram input fs = Ok d -> parsed d = Some p ->
  In row (rows p) -> In tok row -> In c (charsOf tok) ->
  isStructural c = false.
Proof.
  intros Hd Hp.
  destruct (newGoDiagram_parsed input fs d p Hd Hp)
    as (m & p0 & diag & lm & _ & _ & _ & Hp0 & Hpp).
  destruct (initBoardAndDimensions_fields _ _ _ _ _ _ _ _ Hp0)
    as (_ & _ & _ & _ & _ & Hrows).
  assert (Hr : rows p = normalizeRows diag)
    by (subst p; destruct (degenerate fs p0); exact Hrows).
  rewrite Hr. apply normalizeRows_tokens.
Qed.

Lemma grid_tokens_hold_no_structural_character_witness :
  exists p,
    parsedOf enclosedBoard defaultFontSize = Some p
    /\ In ["%"; "a"; "%"] (rows p)
    /\ isStructural "a" = false.
Proof.
  assert (Hd : newGoDiagram enclosedBoard defaultFontSize
               = Ok (instanceOf enclosedBoard defaultFontSize))
    by reflexivity.
  destruct (parsedOf enclosedBoard defaultFontSize) as [p|] eqn:E;
    [|vm_compute in E; discriminate].
  exists p. split; [reflexivity|].
  assert (Hp : parsed (instanceOf enclosedBoard defaultFontSize) = Some p)
    by exact E.
  assert (Hrow : In ["%"; "a"; "%"] (rows p))
    by (vm_compute in E; injection E as <-; right; left; reflexivity).
  split; [exact Hrow|].
  exact (grid_tokens_hold_no_structural_character _ _ _ p
           ["%"; "a"; "%"] "a" "a"%char Hd Hp Hrow
           ltac:(right; left; reflexivity) ltac:(left; reflexivity)).
Defined.
